(** * pro-error-handling-fe: error taxonomy, error manager, retry policy,
      error boundary and global error store.

    A shallow embedding of the TypeScript sources.  Conventions:
    - a JS [number] that the code uses as an HTTP status, a retry count or
      a delay is an integer [Z] (no NaN, no fractions);
    - a JS string is a [string] of bytes; [toLowerCase] acts on the ASCII
      letters only;
    - [process.env.NODE_ENV] and the wall clock are read from an explicit
      environment [Env];
    - an optional property ([code?], [retry?], [stack?]) is an [option];
      an absent [data?] reads as [VUndefined]. *)

From Stdlib Require Import ZArith QArith Qround List String Ascii Bool Lia
  DecimalString.
Import ListNotations.

Local Open Scope string_scope.
Local Open Scope Z_scope.

(* ================================================================== *)
(** ** JS primitives used by the sources *)

Module Js.

(** [String.prototype.toLowerCase], ASCII range. *)
Definition lower_ascii (c : ascii) : ascii :=
  let n := nat_of_ascii c in
  if (Nat.leb 65 n && Nat.leb n 90)%bool then ascii_of_nat (n + 32) else c.

Fixpoint toLowerCase (s : string) : string :=
  match s with
  | EmptyString => EmptyString
  | String c s' => String (lower_ascii c) (toLowerCase s')
  end.

(** [s.startsWith(p)]. *)
Fixpoint startsWith (s p : string) {struct p} : bool :=
  match p, s with
  | EmptyString, _ => true
  | String _ _, EmptyString => false
  | String a p', String b s' => (Ascii.eqb a b && startsWith s' p')%bool
  end.

(** [s.includes(p)]: [p] occurs at some position of [s]. *)
Fixpoint includes (s p : string) : bool :=
  if startsWith s p then true
  else match s with
       | EmptyString => false
       | String _ s' => includes s' p
       end.

(** Truthiness of a string: only the empty string is falsy. *)
Definition truthy_string (s : string) : bool :=
  match s with EmptyString => false | _ => true end.

(** [m || d] for an optional string [m]. *)
Definition or_string (m : option string) (d : string) : string :=
  match m with
  | Some s => if truthy_string s then s else d
  | None => d
  end.

(** [`${n}`] for an integer [n]. *)
Definition number_to_string (n : Z) : string :=
  NilZero.string_of_int (Z.to_int n).

(** Zero-padded decimal of a non-negative integer, [w] digits wide. *)
Fixpoint pad_digits (w : nat) (n : Z) : string :=
  match w with
  | O => EmptyString
  | S w' =>
      pad_digits w' (n / 10)
      ++ String (ascii_of_nat (48 + Z.to_nat (n mod 10))) EmptyString
  end.

(** Proleptic Gregorian date of a day count since 1970-01-01. *)
Definition civil_from_days (days : Z) : Z * Z * Z :=
  let z := days + 719468 in
  let era := z / 146097 in
  let doe := z - era * 146097 in
  let yoe := (doe - doe / 1460 + doe / 36524 - doe / 146096) / 365 in
  let doy := doe - (365 * yoe + yoe / 4 - yoe / 100) in
  let mp := (5 * doy + 2) / 153 in
  let d := doy - (153 * mp + 2) / 5 + 1 in
  let m := if mp <? 10 then mp + 3 else mp - 9 in
  let y := yoe + era * 400 + (if m <=? 2 then 1 else 0) in
  (y, m, d).

(** [new Date(ms).toISOString()], [ms] the milliseconds since the epoch. *)
Definition toISOString (ms : Z) : string :=
  let days := ms / 86400000 in
  let rest := ms mod 86400000 in
  let '(y, m, d) := civil_from_days days in
  let year :=
    if (0 <=? y) && (y <=? 9999) then pad_digits 4 y
    else (if y <? 0 then "-" else "+") ++ pad_digits 6 (Z.abs y) in
  year ++ "-" ++ pad_digits 2 m ++ "-" ++ pad_digits 2 d
    ++ "T" ++ pad_digits 2 (rest / 3600000)
    ++ ":" ++ pad_digits 2 (rest / 60000 mod 60)
    ++ ":" ++ pad_digits 2 (rest / 1000 mod 60)
    ++ "." ++ pad_digits 3 (rest mod 1000) ++ "Z".

End Js.

(* ================================================================== *)
(** ** types.ts *)

Inductive ErrorSeverity := LOW | MEDIUM | HIGH | CRITICAL.

Inductive ErrorCategory :=
  NETWORK | VALIDATION | AUTHENTICATION | AUTHORIZATION | SERVER | CLIENT
| UNKNOWN.

(** [code?: string | number]. *)
Inductive Code := CodeStr (s : string) | CodeNum (n : Z).

Definition ErrorSeverity_eqb (a b : ErrorSeverity) : bool :=
  match a, b with
  | LOW, LOW | MEDIUM, MEDIUM | HIGH, HIGH | CRITICAL, CRITICAL => true
  | _, _ => false
  end.

Definition ErrorCategory_eqb (a b : ErrorCategory) : bool :=
  match a, b with
  | NETWORK, NETWORK | VALIDATION, VALIDATION
  | AUTHENTICATION, AUTHENTICATION | AUTHORIZATION, AUTHORIZATION
  | SERVER, SERVER | CLIENT, CLIENT | UNKNOWN, UNKNOWN => true
  | _, _ => false
  end.

(** [code === 404]: strict equality, so the string ["404"] is not 404. *)
Definition code_is (c : option Code) (n : Z) : bool :=
  match c with
  | Some (CodeNum k) => k =? n
  | _ => false
  end.

(** [code || d]: [undefined], [0] and the empty string are falsy. *)
Definition code_or (c : option Code) (d : Z) : option Code :=
  match c with
  | None => Some (CodeNum d)
  | Some (CodeNum 0) => Some (CodeNum d)
  | Some (CodeStr EmptyString) => Some (CodeNum d)
  | Some k => Some k
  end.

(** The two ambient inputs: [process.env.NODE_ENV === 'production'] and the
    clock read by [new Date()]. *)
Record Env := { production : bool; now : Z }.

(* ================================================================== *)
(** ** errors/classes *)

(** The class of a typed error, with the fields the subclass adds. *)
Inductive ErrorClass :=
| BaseErrorC
| NetworkErrorC
| TimeoutErrorC
| AuthenticationErrorC
| SessionExpiredErrorC
| AuthorizationErrorC
| ValidationErrorC (fieldErrors : list (string * list string))
| ServerErrorC
| NotFoundErrorC
| RateLimitErrorC (retryAfter : option Z).

(** BaseError.ts: the fields every typed error carries.  [D] is the type
    of the opaque [data] payload. *)
Module BaseError.
Record t (D : Type) := make {
  cls : ErrorClass;
  message : string;
  category : ErrorCategory;
  severity : ErrorSeverity;
  timestamp : string;
  code : option Code;
  data : D;
  retry : option bool;
  stack : option string
}.
Arguments make {D}.
Arguments cls {D}.
Arguments message {D}.
Arguments category {D}.
Arguments severity {D}.
Arguments timestamp {D}.
Arguments code {D}.
Arguments data {D}.
Arguments retry {D}.
Arguments stack {D}.
End BaseError.

#[local] Set Warnings "-register-all".

(** A JS value as [handle(error: unknown)] tells them apart: an instance of
    [BaseError], another [Error], a string, or anything else. *)
Inductive Value :=
| VUndefined
| VNull
| VBoolean (b : bool)
| VNumber (n : Z)
| VString (s : string)
| VObject (id : positive)
| VError (message : string) (stack : option string)
| VTyped (e : BaseError.t Value).

Definition TypedError := BaseError.t Value.

Module ErrorResponse.
Record t := make {
  message : string;
  severity : ErrorSeverity;
  category : ErrorCategory;
  code : option Code;
  timestamp : string;
  data : Value;
  retry : option bool;
  stack : option string
}.
End ErrorResponse.

Definition default {A} (o : option A) (d : A) : A :=
  match o with Some a => a | None => d end.

(** Constructors.  [env] supplies the clock for [timestamp]; [stk] is the
    trace the engine captures.  A parameter with a default value in the
    source is an [option] here. *)
Section Constructors.
Variable env : Env.
Variable stk : option string.

(** The body of [BaseError]'s constructor; [c] is the class being
    instantiated. *)
Definition super (c : ErrorClass) (message : string)
    (category : ErrorCategory) (severity : ErrorSeverity)
    (code : option Code) (data : Value) (retry : bool) : TypedError :=
  {| BaseError.cls := c;
     BaseError.message := message;
     BaseError.category := category;
     BaseError.severity := severity;
     BaseError.timestamp := Js.toISOString (now env);
     BaseError.code := code;
     BaseError.data := data;
     BaseError.retry := Some retry;
     BaseError.stack := stk |}.

Definition new_BaseError (message : string)
    (category : option ErrorCategory) (severity : option ErrorSeverity)
    (code : option Code) (data : Value) (retry : option bool) :=
  super BaseErrorC message (default category UNKNOWN)
    (default severity MEDIUM) code data (default retry false).

Definition new_NetworkError (message : option string) (code : option Code)
    (data : Value) (retry : option bool) :=
  super NetworkErrorC (default message "Network connection issue")
    NETWORK HIGH code data (default retry true).

Definition new_TimeoutError (message : option string) (code : option Code)
    (data : Value) (retry : option bool) : TypedError :=
  let e := new_NetworkError (Some (default message "Request timed out"))
             code data (Some (default retry true)) in
  {| BaseError.cls := TimeoutErrorC;
     BaseError.message := BaseError.message e;
     BaseError.category := BaseError.category e;
     BaseError.severity := MEDIUM;
     BaseError.timestamp := BaseError.timestamp e;
     BaseError.code := BaseError.code e;
     BaseError.data := BaseError.data e;
     BaseError.retry := BaseError.retry e;
     BaseError.stack := BaseError.stack e |}.

Definition new_AuthenticationError (message : option string)
    (code : option Code) (data : Value) (retry : option bool) :=
  super AuthenticationErrorC (default message "Authentication failed")
    AUTHENTICATION HIGH code data (default retry true).

Definition new_SessionExpiredError (message : option string)
    (code : option Code) (data : Value) : TypedError :=
  let e := new_AuthenticationError (Some (default message "Session expired"))
             code data (Some true) in
  {| BaseError.cls := SessionExpiredErrorC;
     BaseError.message := BaseError.message e;
     BaseError.category := BaseError.category e;
     BaseError.severity := BaseError.severity e;
     BaseError.timestamp := BaseError.timestamp e;
     BaseError.code := BaseError.code e;
     BaseError.data := BaseError.data e;
     BaseError.retry := BaseError.retry e;
     BaseError.stack := BaseError.stack e |}.

Definition new_AuthorizationError (message : option string)
    (code : option Code) (data : Value) (retry : option bool) :=
  super AuthorizationErrorC (default message "Not authorized")
    AUTHORIZATION HIGH code data (default retry false).

Definition new_ValidationError (message : option string)
    (fieldErrors : option (list (string * list string)))
    (code : option Code) (data : Value) (retry : option bool) :=
  super (ValidationErrorC (default fieldErrors []))
    (default message "Validation failed")
    VALIDATION MEDIUM code data (default retry true).

Definition new_ServerError (message : option string) (code : option Code)
    (data : Value) (retry : option bool) :=
  super ServerErrorC (default message "Server error occurred")
    SERVER HIGH code data (default retry true).

Definition new_NotFoundError (message : option string) (code : option Code)
    (data : Value) (retry : option bool) :=
  super NotFoundErrorC (default message "Resource not found")
    SERVER MEDIUM (code_or code 404) data (default retry false).

Definition new_RateLimitError (message : option string)
    (retryAfter : option Z) (code : option Code) (data : Value) :=
  super (RateLimitErrorC retryAfter) (default message "Rate limit exceeded")
    SERVER MEDIUM (code_or code 429) data true.

End Constructors.

(** [getUserMessage()], dispatched on the class.  [fieldErrors] lists the
    object's entries in [Object.keys] order. *)
Definition getUserMessage (e : TypedError) : string :=
  match BaseError.cls e with
  | BaseErrorC => BaseError.message e
  | NetworkErrorC =>
      "There was a problem connecting to the server. Please check your internet connection and try again."
  | TimeoutErrorC =>
      "The request is taking longer than expected. Please try again later."
  | AuthenticationErrorC =>
      "Authentication failed. Please check your credentials and try again."
  | SessionExpiredErrorC =>
      "Your session has expired. Please log in again."
  | AuthorizationErrorC =>
      "You do not have permission to access this resource."
  | ValidationErrorC fieldErrors =>
      match fieldErrors with
      | (_, firstError :: _) :: _ =>
          if Js.truthy_string firstError then firstError
          else BaseError.message e
      | (_, []) :: _ => BaseError.message e
      | [] => "Please review the form for errors and try again."
      end
  | ServerErrorC =>
      "An unexpected server error occurred. Our team has been notified."
  | NotFoundErrorC => "The requested resource was not found."
  | RateLimitErrorC retryAfter =>
      match retryAfter with
      | Some n =>
          if n =? 0 then "Request limit reached. Please try again later."
          else "Request limit reached. Please try again in "
                 ++ Js.number_to_string n ++ " seconds."
      | None => "Request limit reached. Please try again later."
      end
  end.

(** [canRetry()]. *)
Definition canRetry (e : TypedError) : bool :=
  match BaseError.retry e with Some true => true | _ => false end.

(* ================================================================== *)
(** ** errors/ErrorManager.ts *)

Module ErrorManager.
Section WithEnv.
Variable env : Env.

Definition dev_stack (s : option string) : option string :=
  if negb (production env) then s else None.

Definition formatErrorResponse (error : TypedError) : ErrorResponse.t :=
  {| ErrorResponse.message := getUserMessage error;
     ErrorResponse.severity := BaseError.severity error;
     ErrorResponse.category := BaseError.category error;
     ErrorResponse.code := BaseError.code error;
     ErrorResponse.timestamp := BaseError.timestamp error;
     ErrorResponse.data := BaseError.data error;
     ErrorResponse.retry := BaseError.retry error;
     ErrorResponse.stack := dev_stack (BaseError.stack error) |}.

(** The message scan of [handleStandardError]: category, severity, retry. *)
Definition classify (message : string)
  : ErrorCategory * ErrorSeverity * bool :=
  let lowerMessage := Js.toLowerCase message in
  if Js.includes lowerMessage "network" || Js.includes lowerMessage "fetch"
     || Js.includes lowerMessage "connection"
  then (NETWORK, HIGH, true)
  else if Js.includes lowerMessage "timeout"
          || Js.includes lowerMessage "timed out"
  then (NETWORK, MEDIUM, true)
  else if Js.includes lowerMessage "auth" || Js.includes lowerMessage "login"
          || Js.includes lowerMessage "permission"
  then (AUTHENTICATION, HIGH, false)
  else if Js.includes lowerMessage "validate"
          || Js.includes lowerMessage "invalid"
  then (VALIDATION, LOW, true)
  else if Js.includes lowerMessage "server" || Js.includes lowerMessage "500"
  then (SERVER, HIGH, true)
  else (UNKNOWN, MEDIUM, true).

Definition handleStandardError (message : string) (stack : option string)
  : ErrorResponse.t :=
  let '(category, severity, retry) := classify message in
  {| ErrorResponse.message := message;
     ErrorResponse.severity := severity;
     ErrorResponse.category := category;
     ErrorResponse.code := None;
     ErrorResponse.timestamp := Js.toISOString (now env);
     ErrorResponse.data := VUndefined;
     ErrorResponse.retry := Some retry;
     ErrorResponse.stack := dev_stack stack |}.

Definition handleStringError (error : string) : ErrorResponse.t :=
  {| ErrorResponse.message := error;
     ErrorResponse.severity := MEDIUM;
     ErrorResponse.category := UNKNOWN;
     ErrorResponse.code := None;
     ErrorResponse.timestamp := Js.toISOString (now env);
     ErrorResponse.data := VUndefined;
     ErrorResponse.retry := Some true;
     ErrorResponse.stack := None |}.

Definition handleUnknownError (error : Value) : ErrorResponse.t :=
  {| ErrorResponse.message := "An unknown error occurred";
     ErrorResponse.severity := MEDIUM;
     ErrorResponse.category := UNKNOWN;
     ErrorResponse.code := None;
     ErrorResponse.timestamp := Js.toISOString (now env);
     ErrorResponse.data := error;
     ErrorResponse.retry := Some true;
     ErrorResponse.stack := None |}.

Definition handle (error : Value) : ErrorResponse.t :=
  match error with
  | VTyped e => formatErrorResponse e
  | VError message stack => handleStandardError message stack
  | VString s => handleStringError s
  | other => handleUnknownError other
  end.

Definition createFromHttpStatus (stk : option string) (status : Z)
    (message : option string) (data : Value) : TypedError :=
  let code := Some (CodeNum status) in
  if status =? 400 then
    new_ValidationError env stk (Some (Js.or_string message "Bad Request"))
      (Some []) code data None
  else if status =? 401 then
    new_AuthenticationError env stk
      (Some (Js.or_string message "Unauthorized")) code data None
  else if status =? 403 then
    new_AuthorizationError env stk
      (Some (Js.or_string message "Forbidden")) code data None
  else if status =? 404 then
    new_NotFoundError env stk
      (Some (Js.or_string message "Not Found")) code data None
  else if status =? 429 then
    new_RateLimitError env stk
      (Some (Js.or_string message "Too Many Requests")) None code data
  else if status >=? 500 then
    new_ServerError env stk
      (Some (Js.or_string message "Server Error")) code data None
  else
    new_BaseError env stk
      (Js.or_string message ("HTTP Error " ++ Js.number_to_string status))
      (Some UNKNOWN) (Some MEDIUM) code data None.

Definition shouldReport (error : ErrorResponse.t) : bool :=
  let by_severity :=
    if ErrorSeverity_eqb (ErrorResponse.severity error) HIGH
       || ErrorSeverity_eqb (ErrorResponse.severity error) CRITICAL
    then true
    else if ErrorSeverity_eqb (ErrorResponse.severity error) MEDIUM
            && negb (ErrorCategory_eqb (ErrorResponse.category error)
                       VALIDATION)
    then true
    else false in
  if production env then
    if ErrorCategory_eqb (ErrorResponse.category error) VALIDATION
    then false
    else if code_is (ErrorResponse.code error) 404 then false
    else by_severity
  else by_severity.

End WithEnv.
End ErrorManager.

(* ================================================================== *)
(** ** utils/errorDecorator.ts: retryWithBackoff *)

Module Retry.
Section WithTypes.
(** [W] is the state the operation reads and writes (its closure, the
    network, ...), [T] its result and [E] what it throws. *)
Variables W T E : Type.

Inductive Outcome := Resolved (v : T) | Rejected (e : E).

Definition Operation := W -> Outcome * W.

Record Options := {
  maxRetries : option Z;
  initialDelayMs : option Z;
  maxDelayMs : option Z;
  backoffFactor : option Z;
  shouldRetry : option (E -> Z -> bool)
}.

(** What a run leaves behind: the settled promise, the state after the
    last invocation, how often [fn] was invoked, and the delays slept. *)
Record Run := {
  outcome : Outcome;
  world : W;
  calls : nat;
  sleeps : list Z
}.

Section Loop.
Variable fn : Operation.
Variables maxRetries' initialDelayMs' maxDelayMs' backoffFactor' : Z.
Variable shouldRetry' : E -> Z -> bool.

(** One iteration of [while (true)] per unit of fuel. *)
Fixpoint loop (fuel : nat) (attempts : Z) (w : W) (n : nat)
    (slept : list Z) : option Run :=
  match fuel with
  | O => None
  | S fuel' =>
      match fn w with
      | (Resolved v, w') =>
          Some {| outcome := Resolved v; world := w'; calls := S n;
                  sleeps := slept |}
      | (Rejected error, w') =>
          let attempts := attempts + 1 in
          if (attempts >=? maxRetries')
             || negb (shouldRetry' error attempts)
          then Some {| outcome := Rejected error; world := w';
                       calls := S n; sleeps := slept |}
          else
            let delay :=
              Z.min (initialDelayMs' * backoffFactor' ^ (attempts - 1))
                    maxDelayMs' in
            loop fuel' attempts w' (S n) (slept ++ [delay])
      end
  end.
End Loop.

Definition retryWithBackoff (fuel : nat) (fn : Operation)
    (options : Options) (w : W) : option Run :=
  loop fn
    (default (maxRetries options) 3)
    (default (initialDelayMs options) 1000)
    (default (maxDelayMs options) 10000)
    (default (backoffFactor options) 2)
    (default (shouldRetry options) (fun _ _ => true))
    fuel 0 w O [].

(** The operation throws whenever it is invoked. *)
Definition always_fails (fn : Operation) : Prop :=
  forall w, exists e w', fn w = (Rejected e, w').

End WithTypes.
Arguments Resolved {T E}.
Arguments Rejected {T E}.
Arguments maxRetries {E}.
Arguments initialDelayMs {E}.
Arguments maxDelayMs {E}.
Arguments backoffFactor {E}.
Arguments shouldRetry {E}.
Arguments outcome {W T E}.
Arguments world {W T E}.
Arguments calls {W T E}.
Arguments sleeps {W T E}.
Arguments loop {W T E}.
Arguments retryWithBackoff {W T E}.
Arguments always_fails {W T E}.
End Retry.

(* ================================================================== *)
(** ** errors/ErrorBoundary.tsx *)

Module ErrorBoundary.

Record State := { hasError : bool; error : option ErrorResponse.t }.

(** The two states of the boundary. *)
Definition Stable : State := {| hasError := false; error := None |}.
Definition Failed (e : ErrorResponse.t) : State :=
  {| hasError := true; error := Some e |}.

(** The constructor's [this.state]. *)
Definition initial : State := {| hasError := false; error := None |}.

Definition getDerivedStateFromError (env : Env) (error : Value) : State :=
  let processedError := ErrorManager.handle env error in
  {| hasError := true; error := Some processedError |}.

Definition reset (s : State) : State :=
  {| hasError := false; error := None |}.

Section Keys.
Variable K : Type.
Variable strict_neq : K -> K -> bool.

(** [undefined] is what [nextKeys[index]] reads past the end. *)
Variable undefined : K.

(** [prevKeys.some((key, index) => key !== nextKeys[index])]. *)
Fixpoint some_differs (prevKeys nextKeys : list K) : bool :=
  match prevKeys with
  | [] => false
  | key :: prev' =>
      strict_neq key (hd undefined nextKeys)
      || some_differs prev' (tl nextKeys)
  end.

Definition hasResetKeysChanged (prevKeys nextKeys : list K) : bool :=
  negb (Nat.eqb (List.length prevKeys) (List.length nextKeys))
  || some_differs prevKeys nextKeys.

Definition componentDidUpdate (prevKeys nextKeys : option (list K))
    (s : State) : State :=
  match nextKeys, prevKeys with
  | Some next, Some prev =>
      if hasError s && hasResetKeysChanged prev next then reset s else s
  | _, _ => s
  end.
End Keys.

Section Render.
(** [Node] stands for [ReactNode]. *)
Variable Node : Type.

(** A truthy [fallback] prop: a node or a function of the error. *)
Inductive Fallback :=
| FallbackNode (n : Node)
| FallbackFn (f : ErrorResponse.t -> Node).

Inductive Rendered :=
| Children
| Custom (n : Node)
| DefaultFallback (text : string).

Definition render (fallback : option Fallback) (s : State) : Rendered :=
  match hasError s, error s with
  | true, Some error =>
      match fallback with
      | Some (FallbackFn f) => Custom (f error)
      | Some (FallbackNode n) => Custom n
      | None =>
          DefaultFallback
            (Js.or_string (Some (ErrorResponse.message error))
               "An unexpected error occurred.")
      end
  | _, _ => Children
  end.
End Render.
Arguments Children {Node}.
Arguments Custom {Node}.
Arguments DefaultFallback {Node}.
Arguments render {Node}.

(** The guarded region is rendered, and so can raise, only while the
    boundary shows its children. *)
Definition guarded_region_live (s : State) : bool :=
  match hasError s, error s with
  | true, Some _ => false
  | _, _ => true
  end.

Inductive Event :=
| Raise (env : Env) (raw : Value)
| ResetSignal.

Inductive step : State -> Event -> State -> Prop :=
| step_raise s env raw :
    guarded_region_live s = true ->
    step s (Raise env raw) (getDerivedStateFromError env raw)
| step_reset s :
    step s ResetSignal (reset s).

Inductive reachable : State -> Prop :=
| reachable_initial : reachable initial
| reachable_step s ev s' : reachable s -> step s ev s' -> reachable s'.

End ErrorBoundary.

(* ================================================================== *)
(** ** store/errorStore.ts *)

Module ErrorStore.

Record State := {
  currentError : option ErrorResponse.t;
  errorHistory : list ErrorResponse.t;
  isErrorVisible : bool
}.

Definition initial : State :=
  {| currentError := None; errorHistory := []; isErrorVisible := false |}.

Definition addToHistory (error : ErrorResponse.t) (s : State) : State :=
  {| currentError := currentError s;
     errorHistory := firstn 10 (error :: errorHistory s);
     isErrorVisible := isErrorVisible s |}.

Definition setError (error : option ErrorResponse.t) (s : State) : State :=
  let s1 :=
    {| currentError := error;
       errorHistory := errorHistory s;
       isErrorVisible := match error with Some _ => true | None => false end
    |} in
  match error with
  | Some e => addToHistory e s1
  | None => s1
  end.

Definition clearError (s : State) : State :=
  {| currentError := None; errorHistory := errorHistory s;
     isErrorVisible := false |}.

Definition showError (s : State) : State :=
  {| currentError := currentError s; errorHistory := errorHistory s;
     isErrorVisible := true |}.

Definition hideError (s : State) : State :=
  {| currentError := currentError s; errorHistory := errorHistory s;
     isErrorVisible := false |}.

Definition clearHistory (s : State) : State :=
  {| currentError := currentError s; errorHistory := [];
     isErrorVisible := isErrorVisible s |}.

(** A sequence of [setError] calls, first element first. *)
Definition setErrors (es : list ErrorResponse.t) (s : State) : State :=
  fold_left (fun st e => setError (Some e) st) es s.

End ErrorStore.

(* ================================================================== *)
(** ** errors/classes/ValidationError.ts: the field-error helpers *)

Module ValidationError.

(** [fieldErrors] lists the entries of the object in [Object.keys] order;
    a name that is no own key reads as [undefined] (names inherited from
    [Object.prototype] are outside the model). *)
Definition FieldErrors := list (string * list string).

(** [fieldErrors[name]]. *)
Fixpoint lookup (fieldErrors : FieldErrors) (name : string)
  : option (list string) :=
  match fieldErrors with
  | [] => None
  | (k, v) :: rest => if String.eqb k name then Some v else lookup rest name
  end.

Definition keys (fieldErrors : FieldErrors) : list string :=
  map fst fieldErrors.

Definition getAllMessages (fieldErrors : FieldErrors) (message : string)
  : list string :=
  let messages :=
    flat_map
      (fun field =>
         map (fun error => field ++ ": " ++ error)
           (default (lookup fieldErrors field) []))
      (keys fieldErrors) in
  if (0 <? List.length messages)%nat then messages else [message].

Definition hasFieldError (fieldErrors : FieldErrors) (fieldName : string)
  : bool :=
  match lookup fieldErrors fieldName with
  | Some errors => negb (Nat.eqb (List.length errors) 0)
  | None => false
  end.

Definition getFieldErrors (fieldErrors : FieldErrors) (fieldName : string)
  : list string :=
  default (lookup fieldErrors fieldName) [].

End ValidationError.

(* ================================================================== *)
(** ** features/featureFlags.ts *)

Module FeatureFlags.

Record FeatureFlag := {
  name : string;
  enabled : bool;
  description : string;
  controlGroup : option string
}.

(** The [featureFlags] object, by own key (names inherited from
    [Object.prototype] are outside the model). *)
Definition Table := string -> option FeatureFlag.

Definition set_key (flags : Table) (key : string) (flag : FeatureFlag)
  : Table :=
  fun k => if String.eqb k key then Some flag else flags k.

Definition initial (env : Env) : Table :=
  fun k =>
    if String.eqb k "ENABLE_ERROR_STACK_TRACES" then
      Some {| name := "ENABLE_ERROR_STACK_TRACES";
              enabled := negb (production env);
              description := "Show detailed stack traces in error messages";
              controlGroup := None |}
    else if String.eqb k "USE_NEW_ERROR_HANDLING" then
      Some {| name := "USE_NEW_ERROR_HANDLING";
              enabled := true;
              description :=
                "Use the new error handling system instead of legacy";
              controlGroup := None |}
    else if String.eqb k "ENABLE_ERROR_BOUNDARIES" then
      Some {| name := "ENABLE_ERROR_BOUNDARIES";
              enabled := true;
              description :=
                "Enable React error boundaries for component errors";
              controlGroup := None |}
    else if String.eqb k "ENABLE_AUTOMATIC_RETRY" then
      Some {| name := "ENABLE_AUTOMATIC_RETRY";
              enabled := true;
              description := "Automatically retry failed network requests";
              controlGroup := Some "networking" |}
    else if String.eqb k "ENABLE_DETAILED_VALIDATION_ERRORS" then
      Some {| name := "ENABLE_DETAILED_VALIDATION_ERRORS";
              enabled := true;
              description :=
                "Show detailed validation errors instead of generic messages";
              controlGroup := Some "forms" |}
    else if String.eqb k "ENABLE_ERROR_REPORTING" then
      Some {| name := "ENABLE_ERROR_REPORTING";
              enabled := true;
              description := "Report errors to monitoring service";
              controlGroup := Some "monitoring" |}
    else None.

Definition isFeatureEnabled (flags : Table) (flagName : string) : bool :=
  match flags flagName with
  | Some flag => enabled flag
  | None => false
  end.

Definition getFeatureFlag (flags : Table) (flagName : string)
  : option FeatureFlag :=
  flags flagName.

Definition updateFeatureFlag (flags : Table) (flagName : string)
    (enabled' : bool) : Table :=
  match flags flagName with
  | Some flag =>
      set_key flags flagName
        {| name := name flag; enabled := enabled';
           description := description flag;
           controlGroup := controlGroup flag |}
  | None => flags
  end.

Definition registerFeatureFlag (flags : Table) (flag : FeatureFlag)
  : Table :=
  set_key flags (name flag) flag.

(** [withFeatureFlag]; [None] is the [undefined] returned when the flag is
    off and no [disabledFn] is given. *)
Definition withFeatureFlag {T} (flags : Table) (flagName : string)
    (enabledFn : unit -> T) (disabledFn : option (unit -> T)) : option T :=
  if isFeatureEnabled flags flagName then Some (enabledFn tt)
  else match disabledFn with
       | Some f => Some (f tt)
       | None => None
       end.

(** pages/ErrorDemo.tsx, [toggleFeatureFlag]. *)
Definition toggleFeatureFlag (flags : Table) (flagName : string) : Table :=
  let isEnabled := isFeatureEnabled flags flagName in
  updateFeatureFlag flags flagName (negb isEnabled).

End FeatureFlags.

(* ================================================================== *)
(** ** components/ui/ToastContainer.tsx *)

Module Toast.

Definition getToastBgColor (severity : option ErrorSeverity) : string :=
  match severity with
  | Some CRITICAL => "bg-red-50 border border-red-300"
  | Some HIGH => "bg-red-50 border border-red-200"
  | Some MEDIUM => "bg-yellow-50 border border-yellow-200"
  | Some LOW => "bg-blue-50 border border-blue-200"
  | None => "bg-gray-50 border border-gray-200"
  end.

Definition getToastTextColor (severity : option ErrorSeverity) : string :=
  match severity with
  | Some CRITICAL | Some HIGH => "text-red-800"
  | Some MEDIUM => "text-yellow-800"
  | Some LOW => "text-blue-800"
  | None => "text-gray-800"
  end.

Definition getDurationBySeverity (severity : option ErrorSeverity) : Z :=
  match severity with
  | Some CRITICAL => 8000
  | Some HIGH => 5000
  | Some MEDIUM => 4000
  | Some LOW => 3000
  | None => 4000
  end.

(** What [toast.custom] is called with. *)
Record Shown := {
  text : string;
  bgColor : string;
  textColor : string;
  duration : Z;
  position : string
}.

Definition showErrorToast (error : ErrorResponse.t) : Shown :=
  {| text := ErrorResponse.message error;
     bgColor := getToastBgColor (Some (ErrorResponse.severity error));
     textColor := getToastTextColor (Some (ErrorResponse.severity error));
     duration := getDurationBySeverity (Some (ErrorResponse.severity error));
     position := "top-right" |}.

(** One run of the [useEffect] body right after the render that read the
    store [s]: the toasts it raises and the store it leaves. *)
Definition effect (s : ErrorStore.State) : list Shown * ErrorStore.State :=
  match ErrorStore.currentError s with
  | Some currentError =>
      if ErrorStore.isErrorVisible s
      then ([showErrorToast currentError], ErrorStore.hideError s)
      else ([], s)
  | None => ([], s)
  end.

(** A run of the [useEffect] body in general: [currentError] and
    [isErrorVisible] are the values its render captured, while
    [hideError] acts on the store as it is when the body runs. *)
Definition effect_run (captured live : ErrorStore.State)
  : list Shown * ErrorStore.State :=
  match ErrorStore.currentError captured with
  | Some currentError =>
      if ErrorStore.isErrorVisible captured
      then ([showErrorToast currentError], ErrorStore.hideError live)
      else ([], live)
  | None => ([], live)
  end.

End Toast.

(* ================================================================== *)
(** ** services/errorLogging.ts, as seen by its callers *)

Module Monitoring.

(** One call of [logErrorToMonitoring(error, context)]; of the context
    the model keeps the [context] label (or the [type] of a global
    handler). *)
Record Call := {
  error : ErrorResponse.t;
  label : option string
}.

(** The calls so far, oldest first. *)
Definition Log := list Call.

Definition logErrorToMonitoring (error : ErrorResponse.t)
    (label : option string) (log : Log) : Log :=
  (log ++ [{| error := error; label := label |}])%list.

End Monitoring.

(* ================================================================== *)
(** ** errors/boundaries/ErrorBoundary.tsx: componentDidCatch *)

Module BoundaryEffects.

(** What [componentDidCatch] does besides the console: the monitoring
    calls it adds and the argument it hands to [props.onError], when that
    prop is given. *)
Definition componentDidCatch (env : Env) (error : Value)
    (onError : bool) (log : Monitoring.Log)
  : Monitoring.Log * option ErrorResponse.t :=
  let processedError := ErrorManager.handle env error in
  let log' :=
    if ErrorManager.shouldReport env processedError
    then Monitoring.logErrorToMonitoring processedError None log
    else log in
  (log', if onError then Some processedError else None).

End BoundaryEffects.

(* ================================================================== *)
(** ** utils/errorDecorator.ts: withErrorHandling *)

Module Decorator.
Section WithTypes.
Variables W T : Type.

(** [ApiResponse<T>]; [status] is whatever [code || 500] evaluates to. *)
Record ApiResponse := {
  data : option T;
  error : option ErrorResponse.t;
  status : Code
}.

Record Options := {
  context : option string;
  shouldReport : option (ErrorResponse.t -> bool);
  transformError : option (ErrorResponse.t -> ErrorResponse.t)
}.

(** [code as number || 500]. *)
Definition status_of (code : option Code) : Code :=
  match code with
  | None => CodeNum 500
  | Some (CodeNum 0) => CodeNum 500
  | Some (CodeStr EmptyString) => CodeNum 500
  | Some k => k
  end.

(** The wrapped function, run once: [fn] may return or throw any value. *)
Definition withErrorHandling (env : Env) (flags : FeatureFlags.Table)
    (fn : Retry.Operation W T Value) (options : Options)
    (w : W) (log : Monitoring.Log) : ApiResponse * W * Monitoring.Log :=
  match fn w with
  | (Retry.Resolved result, w') =>
      ({| data := Some result; error := None; status := CodeNum 200 |},
       w', log)
  | (Retry.Rejected raised, w') =>
      let processedError := ErrorManager.handle env raised in
      let processedError :=
        match transformError options with
        | Some f => f processedError
        | None => processedError
        end in
      let shouldReport' :=
        match shouldReport options with
        | Some f => f processedError
        | None => ErrorManager.shouldReport env processedError
        end in
      let log' :=
        if FeatureFlags.isFeatureEnabled flags "ENABLE_ERROR_REPORTING"
           && shouldReport'
        then Monitoring.logErrorToMonitoring processedError
               (context options) log
        else log in
      ({| data := None; error := Some processedError;
          status := status_of (ErrorResponse.code processedError) |},
       w', log')
  end.

End WithTypes.
Arguments data {T}.
Arguments error {T}.
Arguments status {T}.
Arguments withErrorHandling {W T}.
End Decorator.

(* ================================================================== *)
(** ** main.tsx: the global handlers *)

Module Globals.

(** JS truthiness. *)
Definition truthy (v : Value) : bool :=
  match v with
  | VUndefined | VNull => false
  | VBoolean b => b
  | VNumber n => negb (n =? 0)
  | VString s => Js.truthy_string s
  | VObject _ | VError _ _ | VTyped _ => true
  end.

(** [a || b]. *)
Definition or_value (a b : Value) : Value := if truthy a then a else b.

Record World := {
  store : ErrorStore.State;
  monitored : Monitoring.Log
}.

(** [window.onerror]: the handler's return value and the world after. *)
Definition onerror (env : Env) (message error : Value) (w : World)
  : bool * World :=
  let processedError := ErrorManager.handle env (or_value error message) in
  (true,
   {| store := ErrorStore.setError (Some processedError) (store w);
      monitored :=
        Monitoring.logErrorToMonitoring processedError
          (Some "window.onerror") (monitored w) |}).

(** [window.onunhandledrejection], [reason] being [event.reason]. *)
Definition onunhandledrejection (env : Env) (reason : Value) (w : World)
  : World :=
  let processedError := ErrorManager.handle env reason in
  {| store := ErrorStore.setError (Some processedError) (store w);
     monitored :=
       Monitoring.logErrorToMonitoring processedError
         (Some "unhandledRejection") (monitored w) |}.

End Globals.

(* ================================================================== *)
(** ** hooks/useApi.ts: handleAxiosError *)

Module UseApi.

Record AxiosResponse := { status : Z; data : Value }.

Record AxiosError := { message : string; response : option AxiosResponse }.

Section WithHeap.
(** For an object that is no error: [String(data.message)] when
    ['message' in data]. *)
Variable object_message : positive -> option string.

(** The [message] that [handleAxiosError] picks. *)
Definition pick_message (error : AxiosError) : string :=
  match response error with
  | Some r =>
      match data r with
      | VString s => s
      | VObject id => default (object_message id) (message error)
      | VError m _ => m
      | VTyped e => BaseError.message e
      | VUndefined | VNull | VBoolean _ | VNumber _ => message error
      end
  | None => message error
  end.

Definition handleAxiosError (env_built env : Env) (stk : option string)
    (error : AxiosError) : ErrorResponse.t :=
  let status :=
    match response error with
    | Some r => if status r =? 0 then 0 else status r
    | None => 0
    end in
  let data' :=
    match response error with
    | Some r => data r
    | None => VUndefined
    end in
  ErrorManager.handle env
    (VTyped (ErrorManager.createFromHttpStatus env_built stk status
               (Some (pick_message error)) data')).

End WithHeap.
End UseApi.

(* ================================================================== *)
(** ** utils/errorDecorator.ts: retryWithBackoff, for any [maxRetries] *)

Module RetryJs.

(** A JS number as [maxRetries] may be: a finite value, integer or not,
    an infinity, or [NaN]. *)
Inductive Number :=
| Finite (q : Q)
| PlusInfinity
| MinusInfinity
| NaN.

(** [attempts >= maxRetries], [attempts] being a count. *)
Definition reached (attempts : Z) (maxRetries : Number) : bool :=
  match maxRetries with
  | Finite q => Qle_bool q (inject_Z attempts)
  | PlusInfinity => false
  | MinusInfinity => true
  | NaN => false
  end.

Section WithTypes.
Variables W T E : Type.

Record Options := {
  maxRetries : option Number;
  initialDelayMs : option Z;
  maxDelayMs : option Z;
  backoffFactor : option Z;
  shouldRetry : option (E -> Z -> bool)
}.

Section Loop.
Variable fn : Retry.Operation W T E.
Variable maxRetries' : Number.
Variables initialDelayMs' maxDelayMs' backoffFactor' : Z.
Variable shouldRetry' : E -> Z -> bool.

(** One iteration of [while (true)] per unit of fuel. *)
Fixpoint loop (fuel : nat) (attempts : Z) (w : W) (n : nat)
    (slept : list Z) : option (Retry.Run W T E) :=
  match fuel with
  | O => None
  | S fuel' =>
      match fn w with
      | (Retry.Resolved v, w') =>
          Some {| Retry.outcome := Retry.Resolved v; Retry.world := w';
                  Retry.calls := S n; Retry.sleeps := slept |}
      | (Retry.Rejected error, w') =>
          let attempts := attempts + 1 in
          if reached attempts maxRetries'
             || negb (shouldRetry' error attempts)
          then Some {| Retry.outcome := Retry.Rejected error;
                       Retry.world := w'; Retry.calls := S n;
                       Retry.sleeps := slept |}
          else
            let delay :=
              Z.min (initialDelayMs' * backoffFactor' ^ (attempts - 1))
                    maxDelayMs' in
            loop fuel' attempts w' (S n) (slept ++ [delay])
      end
  end.
End Loop.

Definition retryWithBackoff (fuel : nat) (fn : Retry.Operation W T E)
    (options : Options) (w : W) : option (Retry.Run W T E) :=
  loop fn
    (default (maxRetries options) (Finite (inject_Z 3)))
    (default (initialDelayMs options) 1000)
    (default (maxDelayMs options) 10000)
    (default (backoffFactor options) 2)
    (default (shouldRetry options) (fun _ _ => true))
    fuel 0 w O [].

End WithTypes.
Arguments maxRetries {E}.
Arguments initialDelayMs {E}.
Arguments maxDelayMs {E}.
Arguments backoffFactor {E}.
Arguments shouldRetry {E}.
Arguments loop {W T E}.
Arguments retryWithBackoff {W T E}.
End RetryJs.

(* ================================================================== *)
(** ** Vocabulary of the properties *)

(** The spec's "case-insensitive substring": some substring of [msg]
    equals [word] up to the case of its letters. *)
Definition mentions (msg word : string) : Prop :=
  exists a t b, msg = a ++ t ++ b /\ Js.toLowerCase t = Js.toLowerCase word.

(** The production gate of [shouldReport]. *)
Definition suppressed (env : Env) (e : ErrorResponse.t) : Prop :=
  production env = true
  /\ (ErrorResponse.category e = VALIDATION
      \/ ErrorResponse.code e = Some (CodeNum 404)).

(** The words of each branch of the message scan. *)
Definition network_words := ["network"; "fetch"; "connection"]%list.
Definition timeout_words := ["timeout"; "timed out"]%list.
Definition auth_words := ["auth"; "login"; "permission"]%list.
Definition validation_words := ["validate"; "invalid"]%list.
Definition server_words := ["server"; "500"]%list.

Definition mentions_any (msg : string) (ws : list string) : Prop :=
  Exists (mentions msg) ws.

(** The classification of a generic error as the specification words it:
    the first branch whose words the message mentions decides. *)
Inductive Classified (msg : string)
  : ErrorCategory -> ErrorSeverity -> bool -> Prop :=
| cl_network :
    mentions_any msg network_words ->
    Classified msg NETWORK HIGH true
| cl_timeout :
    ~ mentions_any msg network_words ->
    mentions_any msg timeout_words ->
    Classified msg NETWORK MEDIUM true
| cl_auth :
    ~ mentions_any msg network_words ->
    ~ mentions_any msg timeout_words ->
    mentions_any msg auth_words ->
    Classified msg AUTHENTICATION HIGH false
| cl_validation :
    ~ mentions_any msg network_words ->
    ~ mentions_any msg timeout_words ->
    ~ mentions_any msg auth_words ->
    mentions_any msg validation_words ->
    Classified msg VALIDATION LOW true
| cl_server :
    ~ mentions_any msg network_words ->
    ~ mentions_any msg timeout_words ->
    ~ mentions_any msg auth_words ->
    ~ mentions_any msg validation_words ->
    mentions_any msg server_words ->
    Classified msg SERVER HIGH true
| cl_unknown :
    ~ mentions_any msg network_words ->
    ~ mentions_any msg timeout_words ->
    ~ mentions_any msg auth_words ->
    ~ mentions_any msg validation_words ->
    ~ mentions_any msg server_words ->
    Classified msg UNKNOWN MEDIUM true.

(** The scan of the lower-cased message for one of [ws]. *)
Definition includes_any (lowerMessage : string) (ws : list string) : bool :=
  existsb (Js.includes lowerMessage) ws.

(** The raised values whose own empty text [handle] passes on as the
    message: the empty string, a generic error with an empty message, a
    plain [BaseError] with an empty message, and a validation error with
    an empty message whose first field has no first error or an empty
    one. *)
Inductive EmptyMessageSource : Value -> Prop :=
| ems_string : EmptyMessageSource (VString "")
| ems_error stack : EmptyMessageSource (VError "" stack)
| ems_base e :
    BaseError.cls e = BaseErrorC ->
    BaseError.message e = "" ->
    EmptyMessageSource (VTyped e)
| ems_validation e field errors rest :
    BaseError.cls e = ValidationErrorC ((field, errors) :: rest) ->
    hd "" errors = "" ->
    BaseError.message e = "" ->
    EmptyMessageSource (VTyped e).

(** The options [{maxRetries: n}]. *)
Definition default_options {E} (n : Z) : Retry.Options E :=
  {| Retry.maxRetries := Some n; Retry.initialDelayMs := None;
     Retry.maxDelayMs := None; Retry.backoffFactor := None;
     Retry.shouldRetry := None |}.

(** An operation over a call counter: it throws its call number. *)
Definition always_throwing : Retry.Operation nat unit nat :=
  fun k => (Retry.Rejected (S k), S k).

(** An operation that throws on its first two calls and then returns the
    call number. *)
Definition third_time_lucky : Retry.Operation nat nat string :=
  fun k => if Nat.ltb k 2 then (Retry.Rejected "down", S k)
           else (Retry.Resolved (S k), S k).

(** A family of pairwise distinct errors: the number [k] raised at clock
    [k]. *)
Definition sample_error (k : Z) : ErrorResponse.t :=
  ErrorManager.handle {| production := true; now := k |} (VNumber k).

(** Whether the boundary shows the guarded region's own output. *)
Definition shows_children {Node} (r : ErrorBoundary.Rendered Node) : bool :=
  match r with ErrorBoundary.Children => true | _ => false end.

(* ================================================================== *)
(** ** Vocabulary of the further properties *)

(** The delay slept after the [a]-th failed attempt. *)
Definition delay_after (d0 bf dmax : Z) (a : Z) : Z :=
  Z.min (d0 * bf ^ (a - 1)) dmax.

(** The options after destructuring, defaults applied. *)
Definition maxRetries_of {E} (options : Retry.Options E) : Z :=
  default (Retry.maxRetries options) 3.
Definition initialDelayMs_of {E} (options : Retry.Options E) : Z :=
  default (Retry.initialDelayMs options) 1000.
Definition maxDelayMs_of {E} (options : Retry.Options E) : Z :=
  default (Retry.maxDelayMs options) 10000.
Definition backoffFactor_of {E} (options : Retry.Options E) : Z :=
  default (Retry.backoffFactor options) 2.
Definition shouldRetry_of {E} (options : Retry.Options E) : E -> Z -> bool :=
  default (Retry.shouldRetry options) (fun _ _ => true).





(** The run of [always_throwing] under [{maxRetries: 4}]. *)
Definition four_failures : Retry.Run nat unit nat :=
  {| Retry.outcome := Retry.Rejected 4%nat; Retry.world := 4%nat;
     Retry.calls := 4; Retry.sleeps := [1000; 2000; 4000] |}.

(** [raw] is an instance of [BaseError]. *)
Definition is_typed (raw : Value) : bool :=
  match raw with VTyped _ => true | _ => false end.

(** The statuses for which [createFromHttpStatus] picks a class with a
    user message of its own. *)
Definition has_fixed_copy (status : Z) : bool :=
  (status =? 400) || (status =? 401) || (status =? 403) || (status =? 404)
  || (status =? 429) || (status >=? 500).

(** [r] with its timestamp replaced. *)
Definition with_timestamp (t : string) (r : ErrorResponse.t)
  : ErrorResponse.t :=
  {| ErrorResponse.message := ErrorResponse.message r;
     ErrorResponse.severity := ErrorResponse.severity r;
     ErrorResponse.category := ErrorResponse.category r;
     ErrorResponse.code := ErrorResponse.code r;
     ErrorResponse.timestamp := t;
     ErrorResponse.data := ErrorResponse.data r;
     ErrorResponse.retry := ErrorResponse.retry r;
     ErrorResponse.stack := ErrorResponse.stack r |}.

(** The operations of the store, as a caller may issue them. *)
Inductive StoreOp :=
| OpSetError (error : option ErrorResponse.t)
| OpClearError
| OpShowError
| OpHideError
| OpAddToHistory (error : ErrorResponse.t)
| OpClearHistory.

Definition apply_op (op : StoreOp) (s : ErrorStore.State) : ErrorStore.State :=
  match op with
  | OpSetError error => ErrorStore.setError error s
  | OpClearError => ErrorStore.clearError s
  | OpShowError => ErrorStore.showError s
  | OpHideError => ErrorStore.hideError s
  | OpAddToHistory error => ErrorStore.addToHistory error s
  | OpClearHistory => ErrorStore.clearHistory s
  end.

Definition apply_ops (ops : list StoreOp) (s : ErrorStore.State)
  : ErrorStore.State :=
  fold_left (fun st op => apply_op op st) ops s.

(** The order of the severities. *)
Definition severity_rank (s : ErrorSeverity) : Z :=
  match s with LOW => 0 | MEDIUM => 1 | HIGH => 2 | CRITICAL => 3 end.

(** The demo's decorated service: it throws a not-found error. *)
Definition user_not_found (env : Env) : Retry.Operation unit unit Value :=
  fun w =>
    (Retry.Rejected
       (VTyped (new_NotFoundError env None (Some "User not found") None
                  VUndefined None)), w).

Definition demo_options : Decorator.Options :=
  {| Decorator.context := Some "UserService.getUser";
     Decorator.shouldReport := None;
     Decorator.transformError := None |}.

(* ================================================================== *)
(** * Properties *)

(** ** Strings *)

Section StringFacts.
Import Js.

Lemma toLowerCase_app (a b : string) :
  toLowerCase (a ++ b) = toLowerCase a ++ toLowerCase b.
Proof.
  induction a as [|c a IH]; simpl; [reflexivity|].
  now rewrite IH.
Qed.

Lemma toLowerCase_split (s x y : string) :
  toLowerCase s = x ++ y ->
  exists s1 s2, s = s1 ++ s2 /\ toLowerCase s1 = x /\ toLowerCase s2 = y.
Proof.
  revert s; induction x as [|c x IH]; intros s H; simpl in H.
  - exists EmptyString, s. auto.
  - destruct s as [|d s]; simpl in H; [discriminate|].
    injection H as Hc Hs.
    destruct (IH _ Hs) as (s1 & s2 & -> & H1 & H2).
    exists (String d s1), s2. simpl. rewrite H1, Hc. auto.
Qed.

Lemma startsWith_spec (s p : string) :
  startsWith s p = true <-> exists b, s = p ++ b.
Proof.
  revert s; induction p as [|a p IH]; intros s; simpl.
  - split; [exists s; reflexivity | reflexivity].
  - destruct s as [|c s].
    + split; [discriminate | intros [b H]; discriminate].
    + rewrite andb_true_iff, Ascii.eqb_eq, IH. split.
      * intros [-> [b ->]]. now exists b.
      * intros [b H]. injection H as -> ->. split; [reflexivity|now exists b].
Qed.

Lemma includes_spec (s p : string) :
  includes s p = true <-> exists a b, s = a ++ p ++ b.
Proof.
  induction s as [|c s IH]; simpl.
  - destruct (startsWith "" p) eqn:Hsw.
    + apply startsWith_spec in Hsw as [b Hb].
      split; [intros _; exists EmptyString, b; exact Hb | reflexivity].
    + split; [discriminate|].
      intros (a & b & H). destruct a as [|? ?]; simpl in H; [|discriminate].
      assert (startsWith "" p = true) by (apply startsWith_spec; now exists b).
      congruence.
  - destruct (startsWith (String c s) p) eqn:Hsw.
    + apply startsWith_spec in Hsw as [b Hb].
      split; [intros _; exists EmptyString, b; exact Hb | reflexivity].
    + rewrite IH. split.
      * intros (a & b & ->). now exists (String c a), b.
      * intros (a & b & H). destruct a as [|d a]; simpl in H.
        -- assert (startsWith (String c s) p = true)
             by (apply startsWith_spec; now exists b).
           congruence.
        -- injection H as _ ->. now exists a, b.
Qed.

Lemma includes_mentions (msg word : string) :
  includes (toLowerCase msg) (toLowerCase word) = true <-> mentions msg word.
Proof.
  rewrite includes_spec. split.
  - intros (a' & b' & H).
    apply toLowerCase_split in H as (a & r & -> & _ & H).
    apply toLowerCase_split in H as (t & b & -> & Ht & _).
    now exists a, t, b.
  - intros (a & t & b & -> & Ht).
    exists (toLowerCase a), (toLowerCase b).
    now rewrite !toLowerCase_app, Ht.
Qed.

Lemma truthy_string_nonempty (s : string) :
  truthy_string s = true <-> s <> EmptyString.
Proof.
  destruct s; simpl; split; try congruence; intros; discriminate.
Qed.

Lemma or_string_nonempty (m : option string) (d : string) :
  d <> EmptyString -> or_string m d <> EmptyString.
Proof.
  intros Hd. destruct m as [[|c s]|]; simpl; try assumption. discriminate.
Qed.

Lemma length_append (a b : string) :
  String.length (a ++ b) = (String.length a + String.length b)%nat.
Proof. induction a as [|c a IH]; simpl; [reflexivity|now rewrite IH]. Qed.

(** The shape of [toISOString]: 24 characters for a four-digit year, 27
    for the signed six-digit form. *)
Lemma pad_digits_length (w : nat) (n : Z) :
  String.length (pad_digits w n) = w.
Proof.
  revert n; induction w as [|w IH]; intros n; simpl; [reflexivity|].
  rewrite length_append, IH. simpl. lia.
Qed.

Lemma toISOString_length (ms : Z) :
  String.length (toISOString ms) = 24%nat
  \/ String.length (toISOString ms) = 27%nat.
Proof.
  unfold toISOString.
  destruct (civil_from_days (ms / 86400000)) as [[y m] d].
  destruct ((0 <=? y) && (y <=? 9999)); [left|right];
    [|destruct (y <? 0)];
    repeat (rewrite length_append || rewrite pad_digits_length);
    reflexivity.
Qed.

End StringFacts.

(** ** Error manager *)

Section ErrorManagerFacts.
Import ErrorManager.

Lemma ErrorCategory_eqb_eq (a b : ErrorCategory) :
  ErrorCategory_eqb a b = true <-> a = b.
Proof. destruct a, b; simpl; split; congruence. Qed.

Lemma ErrorSeverity_eqb_eq (a b : ErrorSeverity) :
  ErrorSeverity_eqb a b = true <-> a = b.
Proof. destruct a, b; simpl; split; congruence. Qed.

Lemma code_is_eq (c : option Code) (n : Z) :
  code_is c n = true <-> c = Some (CodeNum n).
Proof.
  destruct c as [[s|k]|]; simpl; try (split; congruence).
  rewrite Z.eqb_eq. split; congruence.
Qed.

(** C1. Under the production policy a validation error and an error whose
    code is 404 are not reported, whatever the severity; otherwise high
    and critical are reported, medium is reported unless the category is
    validation, and low is not reported. *)
Theorem shouldReport_policy (env : Env) (e : ErrorResponse.t) :
  (suppressed env e -> shouldReport env e = false)
  /\ (~ suppressed env e ->
      (ErrorResponse.severity e = HIGH \/ ErrorResponse.severity e = CRITICAL ->
       shouldReport env e = true)
      /\ (ErrorResponse.severity e = MEDIUM ->
          ErrorResponse.category e <> VALIDATION ->
          shouldReport env e = true)
      /\ (ErrorResponse.severity e = LOW -> shouldReport env e = false)).
Proof.
  unfold suppressed, shouldReport.
  destruct (ErrorCategory_eqb (ErrorResponse.category e) VALIDATION) eqn:Hc;
  destruct (code_is (ErrorResponse.code e) 404) eqn:Hk;
  destruct (production env) eqn:Hp.
  all: try apply ErrorCategory_eqb_eq in Hc.
  all: try apply code_is_eq in Hk.
  all: split; [ intros [Hprod Hgate]; try reflexivity; try discriminate | ].
  all: try (exfalso; destruct Hgate as [Hv|H404];
            [ rewrite <- ErrorCategory_eqb_eq in Hv; congruence
            | rewrite <- code_is_eq in H404; congruence ]).
  all: intros Hns; try (exfalso; apply Hns; split; [reflexivity|tauto]).
  all: repeat split.
  all: try (intros [Hs|Hs]; rewrite Hs; reflexivity).
  all: try (intros Hs; rewrite Hs; simpl; try reflexivity; intros Hne;
            try reflexivity; congruence).
Qed.

Lemma shouldReport_policy_witness :
  shouldReport {| production := true; now := 0 |}
    (formatErrorResponse {| production := true; now := 0 |}
       (new_NotFoundError {| production := true; now := 0 |} None
          None None VUndefined None)) = false.
Proof.
  apply (proj1 (shouldReport_policy _ _)).
  split; [reflexivity | right; reflexivity].
Defined.

Lemma includes_any_mentions (msg : string) (ws : list string) :
  Forall (fun w => Js.toLowerCase w = w) ws ->
  includes_any (Js.toLowerCase msg) ws = true <-> mentions_any msg ws.
Proof.
  intros Hlow. unfold includes_any, mentions_any.
  rewrite existsb_exists, Exists_exists.
  split; intros (w & Hin & Hw); exists w; split; trivial.
  - apply includes_mentions.
    rewrite (proj1 (Forall_forall _ _) Hlow w Hin). exact Hw.
  - apply includes_mentions in Hw.
    rewrite (proj1 (Forall_forall _ _) Hlow w Hin) in Hw. exact Hw.
Qed.

Lemma classify_unfold (msg : string) :
  classify msg =
    let l := Js.toLowerCase msg in
    if includes_any l network_words then (NETWORK, HIGH, true)
    else if includes_any l timeout_words then (NETWORK, MEDIUM, true)
    else if includes_any l auth_words then (AUTHENTICATION, HIGH, false)
    else if includes_any l validation_words then (VALIDATION, LOW, true)
    else if includes_any l server_words then (SERVER, HIGH, true)
    else (UNKNOWN, MEDIUM, true).
Proof.
  unfold classify, includes_any; simpl.
  now rewrite !orb_false_r, !orb_assoc.
Qed.

Ltac words_lower := repeat constructor.

Lemma classify_Classified (msg : string) :
  let '(c, s, r) := classify msg in Classified msg c s r.
Proof.
  rewrite classify_unfold; cbv zeta.
  destruct (includes_any _ network_words) eqn:H1.
  { apply cl_network. apply includes_any_mentions in H1; [auto|words_lower]. }
  assert (N1 : ~ mentions_any msg network_words).
  { intros H. apply includes_any_mentions in H; [congruence|words_lower]. }
  destruct (includes_any _ timeout_words) eqn:H2.
  { apply cl_timeout; trivial.
    apply includes_any_mentions in H2; [auto|words_lower]. }
  assert (N2 : ~ mentions_any msg timeout_words).
  { intros H. apply includes_any_mentions in H; [congruence|words_lower]. }
  destruct (includes_any _ auth_words) eqn:H3.
  { apply cl_auth; trivial.
    apply includes_any_mentions in H3; [auto|words_lower]. }
  assert (N3 : ~ mentions_any msg auth_words).
  { intros H. apply includes_any_mentions in H; [congruence|words_lower]. }
  destruct (includes_any _ validation_words) eqn:H4.
  { apply cl_validation; trivial.
    apply includes_any_mentions in H4; [auto|words_lower]. }
  assert (N4 : ~ mentions_any msg validation_words).
  { intros H. apply includes_any_mentions in H; [congruence|words_lower]. }
  destruct (includes_any _ server_words) eqn:H5.
  { apply cl_server; trivial.
    apply includes_any_mentions in H5; [auto|words_lower]. }
  apply cl_unknown; trivial.
  intros H. apply includes_any_mentions in H; [congruence|words_lower].
Qed.

(** The specification's classification is a function of the message. *)
Lemma Classified_functional (msg : string) c s r c' s' r' :
  Classified msg c s r -> Classified msg c' s' r' ->
  c = c' /\ s = s' /\ r = r'.
Proof.
  intros H H'; destruct H; destruct H'; auto; contradiction.
Qed.

(** C2. A generic [Error] is classified by the case-insensitive scan of
    its message, in the stated precedence; retry is true on every branch
    but the authentication one. *)
Theorem handle_standard_error_classified
    (env : Env) (msg : string) (stack : option string) :
  let r := handle env (VError msg stack) in
  ErrorResponse.message r = msg
  /\ exists retry,
       ErrorResponse.retry r = Some retry
       /\ (retry = false <-> ErrorResponse.category r = AUTHENTICATION)
       /\ Classified msg (ErrorResponse.category r)
            (ErrorResponse.severity r) retry.
Proof.
  cbv zeta. unfold handle, handleStandardError.
  pose proof (classify_Classified msg) as H.
  destruct (classify msg) as [[c s] b]; simpl.
  split; [reflexivity|]. exists b. split; [reflexivity|].
  split; [|exact H].
  destruct H; split; congruence.
Qed.

(** A message that mentions "network" is network/high. *)
Lemma handle_network_message (env : Env) (msg : string) stack :
  mentions msg "network" ->
  ErrorResponse.category (handle env (VError msg stack)) = NETWORK
  /\ ErrorResponse.severity (handle env (VError msg stack)) = HIGH.
Proof.
  intros Hm. unfold handle, handleStandardError.
  pose proof (classify_Classified msg) as Hc.
  destruct (classify msg) as [[c s] b]; simpl.
  assert (Hn : Classified msg NETWORK HIGH true)
    by (apply cl_network; left; exact Hm).
  destruct (Classified_functional _ _ _ _ _ _ _ Hc Hn) as (-> & -> & _).
  auto.
Qed.

(** C3. A typed error is formatted from its own fields, with
    [getUserMessage()] as the message. *)
Theorem handle_typed_error (env : Env) (e : TypedError) :
  let r := handle env (VTyped e) in
  ErrorResponse.message r = getUserMessage e
  /\ ErrorResponse.category r = BaseError.category e
  /\ ErrorResponse.severity r = BaseError.severity e
  /\ ErrorResponse.code r = BaseError.code e
  /\ ErrorResponse.data r = BaseError.data e
  /\ ErrorResponse.retry r = BaseError.retry e.
Proof. cbv zeta; simpl; repeat split. Qed.

(** Runs through the [switch (true)] chain on the status. *)
Ltac by_status :=
  repeat match goal with
         | |- context [if ?b then _ else _] => destruct b eqn:?
         end;
  solve [reflexivity | lia].

(** C6. The status decides the variant: 400 validation, 401
    authentication, 403 authorization, 404 not-found (not retryable, code
    404), 429 rate-limit, 500 and above server, anything else a plain
    unknown/medium error whose message is "HTTP Error <status>" when the
    caller gave none. *)
Theorem createFromHttpStatus_variants
    (env : Env) (stk : option string) (status : Z)
    (message : option string) (data : Value) :
  let e := createFromHttpStatus env stk status message data in
  (status = 400 ->
     BaseError.cls e = ValidationErrorC []
     /\ BaseError.category e = VALIDATION)
  /\ (status = 401 ->
        BaseError.cls e = AuthenticationErrorC
        /\ BaseError.category e = AUTHENTICATION)
  /\ (status = 403 ->
        BaseError.cls e = AuthorizationErrorC
        /\ BaseError.category e = AUTHORIZATION)
  /\ (status = 404 ->
        BaseError.cls e = NotFoundErrorC
        /\ BaseError.retry e = Some false
        /\ BaseError.code e = Some (CodeNum 404))
  /\ (status = 429 -> BaseError.cls e = RateLimitErrorC None)
  /\ (500 <= status ->
        BaseError.cls e = ServerErrorC /\ BaseError.category e = SERVER)
  /\ (status <> 400 -> status <> 401 -> status <> 403 -> status <> 404 ->
      status <> 429 -> status < 500 ->
        BaseError.cls e = BaseErrorC
        /\ BaseError.category e = UNKNOWN
        /\ BaseError.severity e = MEDIUM
        /\ (message = None ->
            BaseError.message e
            = "HTTP Error " ++ Js.number_to_string status)).
Proof.
  cbv zeta. unfold createFromHttpStatus.
  repeat split; intros; subst; try reflexivity; by_status.
Qed.

Lemma createFromHttpStatus_variants_witness :
  BaseError.message
    (createFromHttpStatus {| production := true; now := 0 |} None 418
       None VUndefined) = "HTTP Error 418".
Proof.
  apply (proj2 (proj2 (proj2 (proj2 (proj2 (proj2
           (createFromHttpStatus_variants
              {| production := true; now := 0 |} None 418 None
              VUndefined))))))); try lia; reflexivity.
Defined.

Lemma getUserMessage_nonempty (e : TypedError) :
  BaseError.message e <> "" -> getUserMessage e <> "".
Proof.
  intros Hm. unfold getUserMessage.
  destruct (BaseError.cls e) as
    [ | | | | | | [|[k [|firstError rest]] more] | | | [n|] ];
    try assumption; try discriminate.
  - destruct (Js.truthy_string firstError) eqn:Ht; [|assumption].
    now apply truthy_string_nonempty.
  - destruct (n =? 0); discriminate.
Qed.

Lemma getUserMessage_empty_iff (e : TypedError) :
  getUserMessage e = "" <-> EmptyMessageSource (VTyped e).
Proof.
  split.
  - unfold getUserMessage.
    destruct (BaseError.cls e) as
      [ | | | | | | [|[k [|firstError rest]] more] | | | [n|] ] eqn:Hc;
      try discriminate.
    + intros Hm. now apply ems_base.
    + intros Hm. now apply (ems_validation e k [] more).
    + destruct (Js.truthy_string firstError) eqn:Ht.
      * intros ->. discriminate.
      * intros Hm. apply (ems_validation e k (firstError :: rest) more);
          trivial.
        simpl. now destruct firstError.
    + destruct (n =? 0); discriminate.
  - intros H. inversion H as [ | | e' Hc Hm | e' k errors rest Hc Hf Hm ];
      subst; unfold getUserMessage; rewrite Hc.
    + exact Hm.
    + destruct errors as [|firstError more]; [exact Hm|].
      simpl in Hf. subst firstError. exact Hm.
Qed.

(** C9 (amended). The message of [handle]'s result is non-empty for
    every raised value but these, for which it is empty: the empty
    string, a generic error with an empty message, a plain [BaseError]
    with an empty message, and a validation error with an empty message
    whose first field has no first error or an empty one.  Every other
    typed error, an empty message of its own included, gets its class's
    fixed text. *)
Theorem handle_message_nonempty (env : Env) (raw : Value) :
  ErrorResponse.message (handle env raw) = "" <-> EmptyMessageSource raw.
Proof.
  destruct raw as [ | | b | n | s | id | m stack | e ]; simpl;
    try (split; [discriminate | intros H; inversion H]).
  - split; [intros ->; constructor | intros H; now inversion H].
  - unfold handleStandardError. destruct (classify m) as [[c s] r]; simpl.
    split; [intros ->; constructor | intros H; now inversion H].
  - apply getUserMessage_empty_iff.
Qed.

Lemma handle_message_nonempty_witness :
  ~ EmptyMessageSource
      (VTyped (new_NetworkError {| production := false; now := 0 |} None
                 (Some "") None VUndefined None))
  /\ ErrorResponse.message
       (handle {| production := false; now := 0 |}
          (VTyped (new_NetworkError {| production := false; now := 0 |} None
                     (Some "") None VUndefined None)))
     = "There was a problem connecting to the server. Please check your internet connection and try again.".
Proof.
  split; [|reflexivity].
  intros H.
  apply (proj2 (handle_message_nonempty {| production := false; now := 0 |}
                  _)) in H.
  discriminate H.
Defined.

(** C9, as stated, fails: the empty string is passed through. *)
Lemma handle_empty_string_message :
  ErrorResponse.message
    (handle {| production := false; now := 0 |} (VString "")) = "".
Proof. reflexivity. Qed.

Lemma handle_empty_error_message :
  ErrorResponse.message
    (handle {| production := true; now := 0 |} (VError "" None)) = "".
Proof. reflexivity. Qed.

(** Every constructor stamps the instance with the clock it is built
    under. *)
Lemma createFromHttpStatus_timestamp env stk status message data :
  BaseError.timestamp (createFromHttpStatus env stk status message data)
  = Js.toISOString (now env).
Proof.
  unfold createFromHttpStatus.
  repeat match goal with |- context [if ?b then _ else _] => destruct b end;
    reflexivity.
Qed.

(** C10 (amended). For a value that is not a typed error the timestamp
    is the ISO-8601 rendering of the clock read while [handle] runs; for
    a typed error it is the instance's own timestamp, which the
    constructor took from the clock at construction. *)
Theorem handle_timestamp (env : Env) (raw : Value) :
  ErrorResponse.timestamp (handle env raw)
  = match raw with
    | VTyped e => BaseError.timestamp e
    | _ => Js.toISOString (now env)
    end.
Proof.
  destruct raw; simpl; try reflexivity.
  unfold handleStandardError. now destruct (classify message) as [[c s] r].
Qed.

(** C10, as stated, fails: a not-found error built at the epoch and
    handled one second later keeps the epoch as its timestamp. *)
Lemma handle_typed_timestamp_is_construction_time :
  let built := {| production := false; now := 0 |} in
  let handled := {| production := false; now := 1000 |} in
  let e := new_NotFoundError built None None None VUndefined None in
  ErrorResponse.timestamp (handle handled (VTyped e))
    = "1970-01-01T00:00:00.000Z"
  /\ Js.toISOString (now handled) = "1970-01-01T00:00:01.000Z".
Proof. split; reflexivity. Qed.

(** Sample classifications, precedence included. *)
Example classify_network :
  classify "Failed to FETCH user" = (NETWORK, HIGH, true).
Proof. reflexivity. Qed.

Example classify_precedence :
  classify "Invalid server response: connection timed out"
  = (NETWORK, HIGH, true).
Proof. reflexivity. Qed.

Example classify_auth :
  classify "Login required" = (AUTHENTICATION, HIGH, false).
Proof. reflexivity. Qed.

Example classify_unknown :
  classify "Unknown error occurred" = (UNKNOWN, MEDIUM, true).
Proof. reflexivity. Qed.

End ErrorManagerFacts.

(** ** Retry policy *)

Section RetryFacts.
Import Retry.
Context {W T E : Type}.
Implicit Types (fn : Operation W T E) (w : W).

(** A success ends the loop at once, whatever the options and however
    many attempts came before. *)
Lemma loop_resolved fn mr d0 dmax bf sr fuel attempts w n slept v w' :
  fn w = (Resolved v, w') ->
  loop fn mr d0 dmax bf sr (S fuel) attempts w n slept
  = Some {| outcome := Resolved v; world := w'; calls := S n;
            sleeps := slept |}.
Proof. intros H; simpl; now rewrite H. Qed.

(** A failure that is not the last allowed one sleeps and goes round. *)
Lemma loop_rejected_retry fn mr d0 dmax bf sr fuel attempts w n slept e w' :
  fn w = (Rejected e, w') ->
  attempts + 1 < mr ->
  sr e (attempts + 1) = true ->
  loop fn mr d0 dmax bf sr (S fuel) attempts w n slept
  = loop fn mr d0 dmax bf sr fuel (attempts + 1) w' (S n)
      (slept ++ [Z.min (d0 * bf ^ (attempts + 1 - 1)) dmax]).
Proof.
  intros H Hlt Hsr; simpl; rewrite H, Hsr.
  destruct (attempts + 1 >=? mr) eqn:Hge; [lia|reflexivity].
Qed.

(** A failure at the limit, or one the predicate declines, is thrown. *)
Lemma loop_rejected_throw fn mr d0 dmax bf sr fuel attempts w n slept e w' :
  fn w = (Rejected e, w') ->
  mr <= attempts + 1 \/ sr e (attempts + 1) = false ->
  loop fn mr d0 dmax bf sr (S fuel) attempts w n slept
  = Some {| outcome := Rejected e; world := w'; calls := S n;
            sleeps := slept |}.
Proof.
  intros H Hstop; simpl; rewrite H.
  destruct Hstop as [Hge|Hsr].
  - destruct (attempts + 1 >=? mr) eqn:Hb; [reflexivity|lia].
  - rewrite Hsr. now rewrite orb_true_r.
Qed.


(** C4. With [maxRetries: 3] and the default predicate, an operation that
    always fails is invoked three times and the third failure is what
    the caller receives. *)
Theorem retryWithBackoff_exhausts fn (options : Options E) w0 fuel :
  always_fails fn ->
  maxRetries options = Some 3 ->
  shouldRetry options = None ->
  (3 <= fuel)%nat ->
  exists run,
    retryWithBackoff fuel fn options w0 = Some run
    /\ calls run = 3%nat
    /\ (outcome run, world run) = fn (snd (fn (snd (fn w0)))).
Proof.
  intros Hfail Hmax Hsr Hfuel.
  destruct (Hfail w0) as (e1 & w1 & H1).
  destruct (Hfail w1) as (e2 & w2 & H2).
  destruct (Hfail w2) as (e3 & w3 & H3).
  destruct fuel as [|[|[|fuel]]]; try lia.
  unfold retryWithBackoff. rewrite Hmax, Hsr. unfold default.
  rewrite (loop_rejected_retry _ _ _ _ _ _ _ _ _ _ _ _ _ H1) by (reflexivity || lia).
  rewrite (loop_rejected_retry _ _ _ _ _ _ _ _ _ _ _ _ _ H2) by (reflexivity || lia).
  rewrite (loop_rejected_throw _ _ _ _ _ _ _ _ _ _ _ _ _ H3) by (left; lia).
  eexists; split; [reflexivity|]. simpl.
  rewrite H1; simpl. rewrite H2; simpl. rewrite H3. auto.
Qed.

(** C5. With [maxRetries: 5] and an always-true predicate, an operation
    that fails twice and then succeeds is invoked three times and its
    third result is returned; in general a success returns at once. *)
Theorem retryWithBackoff_recovers :
  (forall fn (options : Options E) sr w0 e1 w1 e2 w2 v w3 fuel,
      fn w0 = (Rejected e1, w1) ->
      fn w1 = (Rejected e2, w2) ->
      fn w2 = (Resolved v, w3) ->
      maxRetries options = Some 5 ->
      shouldRetry options = Some sr ->
      (forall e n, sr e n = true) ->
      (3 <= fuel)%nat ->
      exists run,
        retryWithBackoff fuel fn options w0 = Some run
        /\ outcome run = Resolved v
        /\ world run = w3
        /\ calls run = 3%nat)
  /\ (forall fn mr d0 dmax bf sr fuel attempts w n slept v w',
         fn w = (Resolved v, w') ->
         exists run,
           loop fn mr d0 dmax bf sr (S fuel) attempts w n slept = Some run
           /\ outcome run = Resolved v
           /\ world run = w'
           /\ calls run = S n
           /\ sleeps run = slept).
Proof.
  split.
  - intros fn options sr w0 e1 w1 e2 w2 v w3 fuel H1 H2 H3 Hmax Hsr Htrue Hfuel.
    destruct fuel as [|[|[|fuel]]]; try lia.
    unfold retryWithBackoff. rewrite Hmax, Hsr. unfold default.
    rewrite (loop_rejected_retry _ _ _ _ _ _ _ _ _ _ _ _ _ H1) by (auto || lia).
    rewrite (loop_rejected_retry _ _ _ _ _ _ _ _ _ _ _ _ _ H2) by (auto || lia).
    rewrite (loop_resolved _ _ _ _ _ _ _ _ _ _ _ _ _ H3).
    eexists; repeat split.
  - intros. rewrite (loop_resolved _ _ _ _ _ _ _ _ _ _ _ _ _ H).
    eexists; repeat split.
Qed.

End RetryFacts.

Lemma retryWithBackoff_exhausts_witness :
  exists run,
    Retry.retryWithBackoff 3 always_throwing (default_options 3) O = Some run
    /\ Retry.calls run = 3%nat
    /\ (Retry.outcome run, Retry.world run) = (Retry.Rejected 3%nat, 3%nat).
Proof.
  apply (retryWithBackoff_exhausts always_throwing (default_options 3) O 3).
  - intros k. exists (S k), (S k). reflexivity.
  - reflexivity.
  - reflexivity.
  - lia.
Defined.

Lemma retryWithBackoff_recovers_witness :
  exists run,
    Retry.retryWithBackoff 5 third_time_lucky
      {| Retry.maxRetries := Some 5; Retry.initialDelayMs := None;
         Retry.maxDelayMs := None; Retry.backoffFactor := None;
         Retry.shouldRetry := Some (fun _ _ => true) |} O = Some run
    /\ Retry.outcome run = Retry.Resolved 3%nat
    /\ Retry.world run = 3%nat
    /\ Retry.calls run = 3%nat.
Proof.
  apply (proj1 retryWithBackoff_recovers third_time_lucky _ (fun _ _ => true)
           O "down" 1%nat "down" 2%nat 3%nat 3%nat 5%nat);
    try reflexivity; lia.
Defined.

Example retry_default_delays :
  option_map Retry.sleeps
    (Retry.retryWithBackoff 9 always_throwing (default_options 6) O)
  = Some [1000; 2000; 4000; 8000; 10000].
Proof. reflexivity. Qed.

(** ** Global error store *)

Section ErrorStoreFacts.
Import ErrorStore.

Lemma firstn_app_firstn {A} (n : nat) (l m : list A) :
  firstn n (l ++ firstn n m) = firstn n (l ++ m).
Proof.
  rewrite !firstn_app, firstn_firstn. do 2 f_equal. lia.
Qed.

Lemma setError_some_history e s :
  errorHistory (setError (Some e) s) = firstn 10 (e :: errorHistory s).
Proof. reflexivity. Qed.

(** The history after a run of [setError] calls: the new errors, latest
    first, in front of the old ones, cut at ten. *)
Lemma setErrors_history e es s :
  errorHistory (setErrors (e :: es) s)
  = firstn 10 (rev (e :: es) ++ errorHistory s).
Proof.
  unfold setErrors. revert e s.
  induction es as [|e' es IH]; intros e s.
  - reflexivity.
  - change (fold_left _ (e :: e' :: es) s)
      with (fold_left (fun st x => setError (Some x) st) (e' :: es)
              (setError (Some e) s)).
    rewrite IH, setError_some_history, firstn_app_firstn.
    change (rev (e :: e' :: es)) with (rev (e' :: es) ++ [e])%list.
    now rewrite <- app_assoc.
Qed.

(** The store never holds more than ten past errors once an error was
    added. *)
Lemma addToHistory_length e s :
  (List.length (errorHistory (addToHistory e s)) <= 10)%nat.
Proof. unfold addToHistory; cbn [errorHistory]. apply firstn_le_length. Qed.

(** C7. [setError] replaces the current error, shows it exactly when it
    is not null, and pushes a non-null error on the front of the history,
    which keeps its ten latest entries: after eleven calls the history
    runs from the eleventh error back to the second. *)
Theorem setError_history :
  (forall e s,
      currentError (setError e s) = e
      /\ (isErrorVisible (setError e s) = true <-> e <> None))
  /\ (forall e s,
         errorHistory (setError (Some e) s)
         = firstn 10 (e :: errorHistory s))
  /\ (forall s, errorHistory (setError None s) = errorHistory s)
  /\ (forall s e1 e2 e3 e4 e5 e6 e7 e8 e9 e10 e11,
         let h :=
           errorHistory
             (setErrors [e1; e2; e3; e4; e5; e6; e7; e8; e9; e10; e11] s) in
         List.length h = 10%nat
         /\ nth_error h 0 = Some e11
         /\ nth_error h 9 = Some e2
         /\ h = [e11; e10; e9; e8; e7; e6; e5; e4; e3; e2]).
Proof.
  split; [|split; [|split]].
  - intros e s. split; [now destruct e|].
    destruct e; simpl; split; congruence.
  - intros e s. apply setError_some_history.
  - reflexivity.
  - intros s e1 e2 e3 e4 e5 e6 e7 e8 e9 e10 e11 h. subst h.
    rewrite setErrors_history. repeat split.
Qed.

Example eleven_errors :
  map (fun e => ErrorResponse.data e)
    (errorHistory (setErrors (map sample_error
                     [1; 2; 3; 4; 5; 6; 7; 8; 9; 10; 11]) initial))
  = map VNumber [11; 10; 9; 8; 7; 6; 5; 4; 3; 2].
Proof. reflexivity. Qed.

End ErrorStoreFacts.

(** ** Error boundary *)

Section ErrorBoundaryFacts.
Import ErrorBoundary.

Lemma render_Stable {Node} (fallback : option (Fallback Node)) :
  render fallback Stable = Children.
Proof. reflexivity. Qed.

Lemma render_Failed {Node} (fallback : option (Fallback Node)) e :
  shows_children (render fallback (Failed e)) = false.
Proof. destruct fallback as [[n|f]|]; reflexivity. Qed.

(** Every state the boundary reaches is [Stable] or [Failed e]. *)
Lemma reachable_Stable_or_Failed s :
  reachable s -> s = Stable \/ exists e, s = Failed e.
Proof.
  induction 1 as [|s ev s' _ _ Hstep]; [now left|].
  destruct Hstep; [right; eexists; reflexivity | now left].
Qed.

(** While [Failed], the guarded region is not rendered: no raise. *)
Lemma Failed_no_raise e env raw s' :
  ~ step (Failed e) (Raise env raw) s'.
Proof. intros H. inversion H; subst. discriminate. Qed.

(** C8. A raise in the guarded region takes the stable boundary to
    [Failed (handle raw)]; the reset signal takes it back to [Stable],
    with no error held and the children rendered; from there a raise is
    caught again. *)
Theorem boundary_raise_reset_raise
    {Node} (fallback : option (Fallback Node))
    (env env' : Env) (raw raw' : Value) :
  let failed := getDerivedStateFromError env raw in
  initial = Stable
  /\ step Stable (Raise env raw) failed
  /\ failed = Failed (ErrorManager.handle env raw)
  /\ shows_children (render fallback failed) = false
  /\ step failed ResetSignal Stable
  /\ error (reset failed) = None
  /\ render fallback (reset failed) = Children
  /\ step (reset failed) (Raise env' raw')
       (Failed (ErrorManager.handle env' raw'))
  /\ reachable (Failed (ErrorManager.handle env' raw')).
Proof.
  cbv zeta.
  assert (S1 : step Stable (Raise env raw) (getDerivedStateFromError env raw))
    by (apply step_raise; reflexivity).
  assert (S2 : step (getDerivedStateFromError env raw) ResetSignal Stable)
    by apply (step_reset (getDerivedStateFromError env raw)).
  assert (S3 : step Stable (Raise env' raw')
                 (Failed (ErrorManager.handle env' raw')))
    by (apply (step_raise Stable); reflexivity).
  repeat split; trivial.
  - apply render_Failed.
  - eapply reachable_step; [|exact S3].
    eapply reachable_step; [|exact S2].
    eapply reachable_step; [|exact S1].
    apply reachable_initial.
Qed.

(** With a function as fallback, the normalized error is what it gets. *)
Example render_fallback_fn {Node} (f : ErrorResponse.t -> Node) env raw :
  render (Some (FallbackFn Node f)) (getDerivedStateFromError env raw)
  = Custom (f (ErrorManager.handle env raw)).
Proof. reflexivity. Qed.

End ErrorBoundaryFacts.


(* ================================================================== *)
(** * Further properties *)

(** ** Retry policy: bounds, delays, what is thrown *)

Section RetryBounds.
Import Retry.
Context {W T E : Type}.
Variable fn : Operation W T E.
Variables mr d0 dmax bf : Z.
Variable sr : E -> Z -> bool.

(** More fuel never changes a finished run. *)
Lemma loop_fuel_mono fuel fuel' attempts w n slept run :
  loop fn mr d0 dmax bf sr fuel attempts w n slept = Some run ->
  (fuel <= fuel')%nat ->
  loop fn mr d0 dmax bf sr fuel' attempts w n slept = Some run.
Proof.
  revert fuel' attempts w n slept.
  induction fuel as [|fuel IH]; intros fuel' attempts w n slept H Hle;
    [discriminate|].
  destruct fuel' as [|fuel']; [lia|].
  simpl in *. destruct (fn w) as [[v|e] w']; [exact H|].
  destruct ((attempts + 1 >=? mr) || negb (sr e (attempts + 1)));
    [exact H|].
  apply IH; [exact H|lia].
Qed.

(** What a finished loop did, counted from the state it started in:
    [k] invocations, [k - 1] sleeps with the delays of the attempts
    [attempts + 1 ...], the last invocation's outcome as its own, and a
    rejection only at the limit or on a declined retry. *)
Lemma loop_shape fuel attempts w n slept run :
  loop fn mr d0 dmax bf sr fuel attempts w n slept = Some run ->
  exists k : nat,
    calls run = (n + S k)%nat
    /\ sleeps run
       = (slept
          ++ map (fun i => delay_after d0 bf dmax (attempts + 1 + Z.of_nat i))
               (seq 0 k))%list
    /\ Z.of_nat (S k) <= Z.max 1 (mr - attempts)
    /\ (exists w0, fn w0 = (outcome run, world run))
    /\ (forall e, outcome run = Rejected e ->
          mr <= attempts + Z.of_nat (S k)
          \/ sr e (attempts + Z.of_nat (S k)) = false).
Proof.
  revert attempts w n slept.
  induction fuel as [|fuel IH]; intros attempts w n slept H; [discriminate|].
  simpl in H. destruct (fn w) as [[v|e] w'] eqn:Hfn.
  - injection H as <-. exists O. cbn [calls sleeps outcome world seq map].
    rewrite app_nil_r.
    split; [lia|]. split; [reflexivity|]. split; [lia|].
    split; [now exists w | discriminate].
  - destruct (attempts + 1 >=? mr) eqn:Hge; simpl in H.
    + injection H as <-. exists O. cbn [calls sleeps outcome world seq map].
      rewrite app_nil_r.
      split; [lia|]. split; [reflexivity|]. split; [lia|].
      split; [now exists w | intros e' _; left; lia].
    + destruct (sr e (attempts + 1)) eqn:Hsr; simpl in H.
      * apply IH in H as (k & Hc & Hs & Hb & Hl & Hr).
        exists (S k).
        split; [lia|]. split; [|split; [lia|split; [exact Hl|]]].
        -- rewrite Hs, <- app_assoc. f_equal.
           cbn [seq map app]. f_equal.
           ++ unfold delay_after. do 3 f_equal. lia.
           ++ rewrite <- seq_shift, map_map.
              apply map_ext. intros i. f_equal. lia.
        -- intros e' He'. destruct (Hr e' He') as [Hm|Hd].
           ++ left. lia.
           ++ right. rewrite <- Hd. f_equal. lia.
      * injection H as <-. exists O. cbn [calls sleeps outcome world seq map].
        rewrite app_nil_r.
        split; [lia|]. split; [reflexivity|]. split; [lia|].
        split; [now exists w|].
        intros e' He'. injection He' as <-. right.
        rewrite <- Hsr; f_equal; lia.
Qed.


End RetryBounds.

Section RetryExtras.
Import Retry.
Context {W T E : Type}.
Implicit Types (fn : Operation W T E) (options : Options E) (w : W).


(** X2. The [i]-th sleep (from 0) lasts
    [min(initialDelayMs * backoffFactor^i, maxDelayMs)]; no sleep exceeds
    [maxDelayMs]. *)
Theorem retryWithBackoff_delays fn options w fuel run :
  retryWithBackoff fuel fn options w = Some run ->
  sleeps run
  = map (fun i =>
           Z.min (initialDelayMs_of options
                  * backoffFactor_of options ^ Z.of_nat i)
                 (maxDelayMs_of options))
      (seq 0 (calls run - 1))
  /\ Forall (fun d => d <= maxDelayMs_of options) (sleeps run).
Proof.
  intros Hrun. unfold retryWithBackoff in Hrun.
  apply loop_shape in Hrun as (k & Hc & Hs & _).
  assert (Heq : sleeps run
                = map (fun i =>
                         Z.min (initialDelayMs_of options
                                * backoffFactor_of options ^ Z.of_nat i)
                               (maxDelayMs_of options))
                    (seq 0 (calls run - 1))).
  { rewrite Hs, Hc. cbn [app Nat.add].
    replace (S k - 1)%nat with k by lia.
    apply map_ext. intros i. unfold delay_after.
    unfold initialDelayMs_of, backoffFactor_of, maxDelayMs_of.
    replace (0 + 1 + Z.of_nat i - 1) with (Z.of_nat i) by lia.
    reflexivity. }
  split; [exact Heq|].
  rewrite Heq. apply Forall_forall. intros d Hd.
  apply in_map_iff in Hd as (i & <- & _). apply Z.le_min_r.
Qed.


(** X4. The first invocation is the only one when it succeeds, when
    [maxRetries] is 1 or less (zero and negative included), or when
    [shouldRetry] declines its failure: the run settles with its outcome
    and never sleeps. *)
Theorem retryWithBackoff_first_is_final fn options w fuel :
  (match fn w with
   | (Resolved _, _) => True
   | (Rejected e, _) =>
       maxRetries_of options <= 1 \/ shouldRetry_of options e 1 = false
   end) ->
  retryWithBackoff (S fuel) fn options w
  = Some {| outcome := fst (fn w); world := snd (fn w); calls := 1;
            sleeps := [] |}.
Proof.
  unfold retryWithBackoff, maxRetries_of, shouldRetry_of.
  destruct (fn w) as [[v|e] w'] eqn:Hfn; intros Hstop.
  - now rewrite (loop_resolved _ _ _ _ _ _ _ _ _ _ _ _ _ Hfn).
  - rewrite (loop_rejected_throw _ _ _ _ _ _ _ _ _ _ _ _ _ Hfn);
      [reflexivity|].
    destruct Hstop as [H|H]; [left; lia | right; exact H].
Qed.

End RetryExtras.

Lemma retryWithBackoff_delays_witness :
  Retry.retryWithBackoff 4 always_throwing (default_options 4) O
  = Some four_failures
  /\ Retry.sleeps four_failures
     = map (fun i =>
              Z.min (initialDelayMs_of (default_options (E:=nat) 4)
                     * backoffFactor_of (default_options (E:=nat) 4)
                       ^ Z.of_nat i)
                    (maxDelayMs_of (default_options (E:=nat) 4)))
         (seq 0 (Retry.calls four_failures - 1))
  /\ Forall (fun d => d <= maxDelayMs_of (default_options (E:=nat) 4))
       (Retry.sleeps four_failures).
Proof.
  assert (H : Retry.retryWithBackoff 4 always_throwing (default_options 4) O
              = Some four_failures) by reflexivity.
  split; [exact H|].
  exact (retryWithBackoff_delays always_throwing (default_options 4) O 4
           four_failures H).
Defined.


Lemma retryWithBackoff_first_is_final_witness :
  Retry.retryWithBackoff 1 always_throwing (default_options 0) O
  = Some {| Retry.outcome := Retry.Rejected 1%nat; Retry.world := 1%nat;
            Retry.calls := 1; Retry.sleeps := [] |}.
Proof.
  apply (retryWithBackoff_first_is_final always_throwing (default_options 0) O 0).
  simpl. left. vm_compute. discriminate.
Defined.

(** ** Retry policy: any number as [maxRetries] *)

Section RetryNumbers.
Context {W T E : Type}.
Variable fn : Retry.Operation W T E.
Variables d0 dmax bf : Z.
Variable sr : E -> Z -> bool.




End RetryNumbers.



(** ** Error manager: what reaches the user and the monitor *)

Section ManagerExtras.
Import ErrorManager.

(** Runs through the status chain, in the goal. *)
Ltac status_cases :=
  repeat match goal with
         | |- context [if ?b then _ else _] => destruct b eqn:?
         end.

Lemma createFromHttpStatus_code_data
    (env : Env) (stk : option string) (status : Z)
    (message : option string) (data : Value) :
  BaseError.code (createFromHttpStatus env stk status message data)
  = Some (CodeNum status)
  /\ BaseError.data (createFromHttpStatus env stk status message data)
     = data.
Proof.
  unfold createFromHttpStatus.
  destruct (status =? 400); [now split|].
  destruct (status =? 401); [now split|].
  destruct (status =? 403); [now split|].
  destruct (status =? 404) eqn:E404.
  { apply Z.eqb_eq in E404. subst status. now split. }
  destruct (status =? 429) eqn:E429.
  { apply Z.eqb_eq in E429. subst status. now split. }
  destruct (status >=? 500); now split.
Qed.

(** X5. Normalizing the error built for an HTTP status keeps the status
    as code and the payload as data; retry is offered exactly for 400,
    401, 429 and 500 and above; the severity is high exactly for 401, 403
    and 500 and above, and medium otherwise. *)
Theorem handle_http_status_fields
    (built env : Env) (stk : option string) (status : Z)
    (message : option string) (data : Value) :
  let r := handle env
             (VTyped (createFromHttpStatus built stk status message data)) in
  ErrorResponse.code r = Some (CodeNum status)
  /\ ErrorResponse.data r = data
  /\ ErrorResponse.retry r
     = Some ((status =? 400) || (status =? 401) || (status =? 429)
             || (status >=? 500))
  /\ ErrorResponse.severity r
     = (if (status =? 401) || (status =? 403) || (status >=? 500)
        then HIGH else MEDIUM).
Proof.
  cbv zeta. unfold handle, formatErrorResponse, createFromHttpStatus.
  destruct (status =? 400) eqn:E400.
  { apply Z.eqb_eq in E400. subst status. repeat split. }
  destruct (status =? 401) eqn:E401.
  { apply Z.eqb_eq in E401. subst status. repeat split. }
  destruct (status =? 403) eqn:E403.
  { apply Z.eqb_eq in E403. subst status. repeat split. }
  destruct (status =? 404) eqn:E404.
  { apply Z.eqb_eq in E404. subst status. repeat split. }
  destruct (status =? 429) eqn:E429.
  { apply Z.eqb_eq in E429. subst status. repeat split. }
  destruct (status >=? 500) eqn:E500; repeat split.
Qed.

(** X6. For 400, 401, 403, 404, 429 and every status from 500 on, the
    message supplied by the caller (the server's text) never reaches the
    normalized error: its message is the same whatever was supplied.  For
    every other status the supplied message is passed on, or
    "HTTP Error <status>" when it is missing or empty. *)
Theorem handle_http_status_message
    (built env : Env) (stk : option string) (status : Z) (data : Value) :
  (has_fixed_copy status = true ->
   forall message message' : option string,
     ErrorResponse.message
       (handle env
          (VTyped (createFromHttpStatus built stk status message data)))
     = ErrorResponse.message
         (handle env
            (VTyped (createFromHttpStatus built stk status message' data))))
  /\ (has_fixed_copy status = false ->
      forall message : option string,
        ErrorResponse.message
          (handle env
             (VTyped (createFromHttpStatus built stk status message data)))
        = Js.or_string message
            ("HTTP Error " ++ Js.number_to_string status)).
Proof.
  unfold has_fixed_copy, handle, formatErrorResponse, createFromHttpStatus.
  split; intros H; intros.
  - status_cases; try reflexivity. discriminate.
  - status_cases; try discriminate. reflexivity.
Qed.

(** X7. No stack is exposed in production, whatever is handled; outside
    production the stack is the raised error's own, and a string or a
    value that is no error never has one. *)
Theorem handle_stack (env : Env) (raw : Value) :
  ErrorResponse.stack (handle env raw)
  = if production env then None
    else match raw with
         | VTyped e => BaseError.stack e
         | VError _ stack => stack
         | _ => None
         end.
Proof.
  destruct raw; simpl; try (now destruct (production env)).
  - unfold handleStandardError. destruct (classify message) as [[c s] r].
    simpl. unfold dev_stack. now destruct (production env).
  - unfold dev_stack. now destruct (production env).
Qed.

Lemma handle_other_clock (env env' : Env) (raw : Value) :
  production env = production env' ->
  handle env' raw
  = with_timestamp (ErrorResponse.timestamp (handle env' raw))
      (handle env raw).
Proof.
  intros Hp. destruct raw; simpl; try reflexivity.
  - unfold handleStandardError, dev_stack. rewrite Hp.
    now destruct (classify message) as [[c s] r].
  - unfold formatErrorResponse, with_timestamp, dev_stack. simpl.
    now rewrite Hp.
Qed.

Lemma shouldReport_with_timestamp (env : Env) (t : string)
    (r : ErrorResponse.t) :
  shouldReport env (with_timestamp t r) = shouldReport env r.
Proof. reflexivity. Qed.

(** X8. Handling the same value at another time changes the timestamp
    and nothing else; for a typed error it changes nothing at all. *)
Theorem handle_clock (env env' : Env) (raw : Value) :
  production env = production env' ->
  handle env' raw
  = with_timestamp (ErrorResponse.timestamp (handle env' raw))
      (handle env raw)
  /\ (is_typed raw = true -> handle env' raw = handle env raw).
Proof.
  intros Hp. split; [now apply handle_other_clock|].
  destruct raw; try discriminate. intros _. simpl.
  unfold formatErrorResponse, dev_stack. now rewrite Hp.
Qed.

Lemma classify_low_iff_validation (msg : string) :
  let '(c, s, _) := classify msg in
  (s = LOW <-> c = VALIDATION) /\ s <> CRITICAL.
Proof.
  unfold classify. cbv zeta.
  status_cases; repeat split; congruence.
Qed.

(** X9. For a value that is no typed error, the production gate makes no
    difference: the normalized error is reported unless it was classified
    as validation; a raised string or non-error value is always
    reported. *)
Theorem shouldReport_untyped (env : Env) (raw : Value) :
  is_typed raw = false ->
  shouldReport env (handle env raw)
  = negb (ErrorCategory_eqb (ErrorResponse.category (handle env raw))
            VALIDATION)
  /\ (match raw with
      | VError _ _ => True
      | _ => shouldReport env (handle env raw) = true
      end).
Proof.
  intros Ht. destruct raw; try discriminate; simpl;
    try (split; unfold shouldReport; simpl; now destruct (production env)).
  split; [|exact I].
  unfold handleStandardError.
  pose proof (classify_low_iff_validation message) as H.
  destruct (classify message) as [[c s] r]. destruct H as [[H1 H2] H3].
  unfold shouldReport; simpl.
  destruct (production env), c, s; simpl; try reflexivity;
    try (now (exfalso; (discriminate (H1 eq_refl) || discriminate (H2 eq_refl)
                         || apply H3; reflexivity))).
Qed.

(** X10. The production policy only ever suppresses: an error reported
    in production is reported outside production too. *)
Theorem shouldReport_production_subset (env env' : Env)
    (e : ErrorResponse.t) :
  production env = true -> production env' = false ->
  shouldReport env e = true -> shouldReport env' e = true.
Proof.
  unfold shouldReport. intros -> ->.
  destruct (ErrorCategory_eqb (ErrorResponse.category e) VALIDATION);
    [discriminate|].
  destruct (code_is (ErrorResponse.code e) 404); [discriminate|].
  auto.
Qed.

(** X11. For every class but [BaseError] and [ValidationError], the user
    message is decided by the class alone (with [retryAfter] for the rate
    limit): the instance's own message, code and data never show. *)
Theorem getUserMessage_by_class (e e' : TypedError) :
  BaseError.cls e = BaseError.cls e' ->
  BaseError.cls e <> BaseErrorC ->
  (forall fieldErrors, BaseError.cls e <> ValidationErrorC fieldErrors) ->
  getUserMessage e = getUserMessage e'.
Proof.
  intros Hc Hb Hv. unfold getUserMessage. rewrite <- Hc.
  destruct (BaseError.cls e); try reflexivity.
  - contradiction.
  - exfalso. now apply (Hv fieldErrors).
Qed.

End ManagerExtras.

Lemma handle_http_status_message_witness :
  ErrorResponse.message
    (ErrorManager.handle {| production := true; now := 5 |}
       (VTyped (ErrorManager.createFromHttpStatus
                  {| production := true; now := 0 |} None 404
                  (Some "no such user 17 in table users") VNull)))
  = ErrorResponse.message
      (ErrorManager.handle {| production := true; now := 5 |}
         (VTyped (ErrorManager.createFromHttpStatus
                    {| production := true; now := 0 |} None 404
                    None VNull))).
Proof.
  apply (proj1 (handle_http_status_message _ _ _ 404 _)). reflexivity.
Defined.

Lemma handle_clock_witness :
  ErrorManager.handle {| production := false; now := 86400000 |}
    (VError "socket hang up" None)
  = with_timestamp "1970-01-02T00:00:00.000Z"
      (ErrorManager.handle {| production := false; now := 0 |}
         (VError "socket hang up" None)).
Proof.
  apply (proj1 (handle_clock {| production := false; now := 0 |}
                  {| production := false; now := 86400000 |}
                  (VError "socket hang up" None) eq_refl)).
Defined.

Lemma shouldReport_untyped_witness :
  ErrorManager.shouldReport {| production := true; now := 0 |}
    (ErrorManager.handle {| production := true; now := 0 |}
       (VError "Invalid date" None))
  = false.
Proof.
  apply (proj1 (shouldReport_untyped {| production := true; now := 0 |}
                  (VError "Invalid date" None) eq_refl)).
Defined.

Lemma shouldReport_production_subset_witness :
  ErrorManager.shouldReport {| production := false; now := 0 |}
    (ErrorManager.handle {| production := false; now := 0 |} (VString "x"))
  = true.
Proof.
  apply (shouldReport_production_subset {| production := true; now := 0 |});
    reflexivity.
Defined.

Lemma getUserMessage_by_class_witness :
  getUserMessage
    (new_ServerError {| production := true; now := 0 |} None
       (Some "ECONNRESET at db-3") (Some (CodeNum 502)) VNull None)
  = getUserMessage
      (new_ServerError {| production := true; now := 9 |} None None None
         VUndefined None).
Proof.
  apply getUserMessage_by_class; [reflexivity | discriminate |].
  intros fieldErrors. discriminate.
Defined.

(** ** Validation errors: the field queries *)

Section ValidationExtras.
Import ValidationError.

Lemma lookup_In_keys (fieldErrors : FieldErrors) (name : string) errors :
  lookup fieldErrors name = Some errors -> In name (keys fieldErrors).
Proof.
  induction fieldErrors as [|[k v] rest IH]; simpl; [discriminate|].
  destruct (String.eqb k name) eqn:Hk.
  - apply String.eqb_eq in Hk. now left.
  - intros H. right. now apply IH.
Qed.

(** X12. For a field name that is an own key of [fieldErrors]: the field
    has errors exactly when the list returned for it is not empty, and
    every error returned for it appears in [getAllMessages] as
    "<field>: <error>". *)
Theorem field_queries_agree (fieldErrors : FieldErrors) (fieldName : string) :
  In fieldName (keys fieldErrors) ->
  (hasFieldError fieldErrors fieldName = true
   <-> getFieldErrors fieldErrors fieldName <> [])
  /\ (forall error message,
        In error (getFieldErrors fieldErrors fieldName) ->
        In (fieldName ++ ": " ++ error)
          (getAllMessages fieldErrors message)).
Proof.
  intros Hown. unfold hasFieldError, getFieldErrors, getAllMessages.
  split.
  - destruct (lookup fieldErrors fieldName) as [[|e errors]|]; simpl;
      split; congruence.
  - intros error message Hin.
    destruct (lookup fieldErrors fieldName) as [errors|] eqn:Hl;
      [|contradiction].
    simpl in Hin.
    assert (Hall : In (fieldName ++ ": " ++ error)
                     (flat_map
                        (fun field =>
                           map (fun error => field ++ ": " ++ error)
                             (default (lookup fieldErrors field) []))
                        (keys fieldErrors))).
    { apply in_flat_map. exists fieldName. split; [exact Hown|].
      rewrite Hl. simpl. apply in_map_iff. now exists error. }
    destruct (flat_map _ (keys fieldErrors)) as [|m ms]; [contradiction|].
    exact Hall.
Qed.

(** X13. [getAllMessages] never returns an empty list: when no field has
    an error it is the error's own message alone. *)
Theorem getAllMessages_nonempty (fieldErrors : FieldErrors)
    (message : string) :
  getAllMessages fieldErrors message <> []
  /\ ((forall fieldName, hasFieldError fieldErrors fieldName = false) ->
      getAllMessages fieldErrors message = [message]).
Proof.
  unfold getAllMessages. split.
  - destruct (flat_map _ (keys fieldErrors)); simpl; discriminate.
  - intros Hnone.
    assert (Hnil : flat_map
                     (fun field =>
                        map (fun error => field ++ ": " ++ error)
                          (default (lookup fieldErrors field) []))
                     (keys fieldErrors) = []).
    { induction (keys fieldErrors) as [|k ks IH]; [reflexivity|].
      cbn [flat_map]. rewrite IH, app_nil_r.
      specialize (Hnone k). unfold hasFieldError in Hnone.
      destruct (lookup fieldErrors k) as [[|e errors]|];
        try reflexivity; discriminate. }
    now rewrite Hnil.
Qed.

End ValidationExtras.

Lemma field_queries_agree_witness :
  In "email: Invalid email format"
    (ValidationError.getAllMessages
       [("email", ["Invalid email format"]);
        ("password", ["Password must be at least 8 characters"])]%list
       "Form validation failed").
Proof.
  apply (proj2 (field_queries_agree
                  [("email", ["Invalid email format"]);
                   ("password",
                    ["Password must be at least 8 characters"])]%list
                  "email" ltac:(simpl; now left))).
  simpl. now left.
Defined.

Lemma getAllMessages_nonempty_witness :
  ValidationError.getAllMessages [("email", [])]%list "Validation failed"
  = ["Validation failed"]%list.
Proof.
  apply (proj2 (getAllMessages_nonempty [("email", [])]%list
                  "Validation failed")).
  intros fieldName. unfold ValidationError.hasFieldError.
  cbn [ValidationError.lookup].
  now destruct (String.eqb "email" fieldName).
Defined.

(** ** Feature flags *)

Section FlagExtras.
Import FeatureFlags.

Lemma set_key_same flags key flag : set_key flags key flag key = Some flag.
Proof. unfold set_key. now rewrite String.eqb_refl. Qed.

Lemma set_key_other flags key flag k :
  k <> key -> set_key flags key flag k = flags k.
Proof.
  intros Hne. unfold set_key.
  destruct (String.eqb k key) eqn:Hk; [|reflexivity].
  apply String.eqb_eq in Hk. contradiction.
Qed.

(** X15. Toggling a flag twice gives back the table: every flag reads as
    before, with its name, description and group. *)
Theorem toggleFeatureFlag_twice (flags : Table) (flagName k : string) :
  getFeatureFlag (toggleFeatureFlag (toggleFeatureFlag flags flagName)
                    flagName) k
  = getFeatureFlag flags k.
Proof.
  unfold getFeatureFlag, toggleFeatureFlag, updateFeatureFlag,
    isFeatureEnabled.
  destruct (flags flagName) as [flag|] eqn:Hf.
  - rewrite set_key_same. cbn [name enabled description controlGroup].
    rewrite negb_involutive.
    unfold set_key.
    destruct (String.eqb k flagName) eqn:Hk; [|reflexivity].
    apply String.eqb_eq in Hk. subst k. rewrite Hf.
    now destruct flag.
  - now rewrite Hf.
Qed.

End FlagExtras.

(** ** Global error store: the history under any use *)

Section StoreExtras.
Import ErrorStore.

Lemma apply_op_history_bound op s :
  (List.length (errorHistory s) <= 10)%nat ->
  (List.length (errorHistory (apply_op op s)) <= 10)%nat.
Proof.
  intros H.
  destruct op as [[e|]| | | |e|];
    unfold apply_op, setError, addToHistory, clearError, showError,
      hideError, clearHistory;
    cbn [errorHistory]; try exact H; try apply firstn_le_length.
  cbn. lia.
Qed.

(** X16. After one or more [setError] calls with non-null errors the
    history is the ten latest of them, newest first, topped up with the
    newest of the old entries when fewer than ten were set; ten or more
    calls leave nothing of the old history. *)
Theorem setErrors_latest_ten (es : list ErrorResponse.t) (s : State) :
  es <> [] ->
  errorHistory (setErrors es s) = firstn 10 (rev es ++ errorHistory s)
  /\ ((10 <= List.length es)%nat ->
      errorHistory (setErrors es s) = firstn 10 (rev es)).
Proof.
  intros Hne. destruct es as [|e es]; [contradiction|].
  rewrite setErrors_history. split; [reflexivity|].
  intros Hlen. rewrite firstn_app.
  replace (10 - List.length (rev (e :: es)))%nat with O
    by (rewrite length_rev; lia).
  now rewrite firstn_O, app_nil_r.
Qed.

(** X17. Whatever sequence of store operations runs from the initial
    store, the history never holds more than ten errors. *)
Theorem history_never_exceeds_ten (ops : list StoreOp) :
  (List.length (errorHistory (apply_ops ops initial)) <= 10)%nat.
Proof.
  unfold apply_ops.
  assert (H : forall s, (List.length (errorHistory s) <= 10)%nat ->
                (List.length
                   (errorHistory
                      (fold_left (fun st op => apply_op op st) ops s))
                 <= 10)%nat).
  { induction ops as [|op ops IH]; intros s Hs; [exact Hs|].
    simpl. apply IH. now apply apply_op_history_bound. }
  apply H. simpl. lia.
Qed.

End StoreExtras.

Lemma setErrors_latest_ten_witness :
  map ErrorResponse.data
    (ErrorStore.errorHistory
       (ErrorStore.setErrors (map sample_error [4; 5])
          (ErrorStore.setErrors (map sample_error [1; 2; 3])
             ErrorStore.initial)))
  = map VNumber [5; 4; 3; 2; 1].
Proof.
  rewrite (proj1 (setErrors_latest_ten (map sample_error [4; 5])
                    (ErrorStore.setErrors (map sample_error [1; 2; 3])
                       ErrorStore.initial)
                    ltac:(discriminate))).
  reflexivity.
Defined.

(** ** Toasts *)

Section ToastExtras.
Import Toast.

(** X18. A run of the toast effect whose render captured the store
    right after [setError(e)] shows [e], with the duration of its
    severity, and hides it in the store, keeping the current error and
    the history.  A run whose render captured the hidden store shows
    nothing.  A second run with the same captured values, as a repeated
    mount effect is, shows the toast again and leaves the store as it
    is. *)
Theorem toast_effect_runs (e : ErrorResponse.t) (s : ErrorStore.State) :
  let s1 := ErrorStore.setError (Some e) s in
  let s2 := ErrorStore.hideError s1 in
  effect_run s1 s1 = ([showErrorToast e], s2)
  /\ duration (showErrorToast e)
     = getDurationBySeverity (Some (ErrorResponse.severity e))
  /\ ErrorStore.isErrorVisible s2 = false
  /\ ErrorStore.currentError s2 = Some e
  /\ ErrorStore.errorHistory s2 = ErrorStore.errorHistory s1
  /\ effect_run s2 s2 = ([], s2)
  /\ effect_run s1 s2 = ([showErrorToast e], s2).
Proof. cbv zeta. unfold effect_run. simpl. repeat split. Qed.

(** X19. A toast stays longer the more severe the error: the duration
    grows with the severity, from 3 to 8 seconds. *)
Theorem duration_grows_with_severity (a b : ErrorSeverity) :
  severity_rank a <= severity_rank b ->
  3000 <= getDurationBySeverity (Some a)
  /\ getDurationBySeverity (Some a) <= getDurationBySeverity (Some b)
  /\ getDurationBySeverity (Some b) <= 8000.
Proof. destruct a, b; simpl; lia. Qed.

End ToastExtras.

Lemma duration_grows_with_severity_witness :
  3000 <= Toast.getDurationBySeverity (Some MEDIUM)
  /\ Toast.getDurationBySeverity (Some MEDIUM)
     <= Toast.getDurationBySeverity (Some CRITICAL)
  /\ Toast.getDurationBySeverity (Some CRITICAL) <= 8000.
Proof.
  apply (duration_grows_with_severity MEDIUM CRITICAL). simpl. lia.
Defined.

(** ** Error boundary: watched keys and the catch hook *)

Section BoundaryExtras.
Import ErrorBoundary.
Context {K : Type}.
Variable strict_neq : K -> K -> bool.
Variable undefined : K.
(** [!==] tells different keys apart and nothing else (no [NaN] among the
    keys). *)
Hypothesis strict_neq_spec : forall a b, strict_neq a b = false <-> a = b.

Lemma some_differs_same_length (prevKeys nextKeys : list K) :
  List.length prevKeys = List.length nextKeys ->
  some_differs K strict_neq undefined prevKeys nextKeys = false
  <-> prevKeys = nextKeys.
Proof.
  revert nextKeys.
  induction prevKeys as [|a p IH]; intros [|b n] Hlen; try discriminate.
  - split; reflexivity.
  - simpl in *. rewrite orb_false_iff, strict_neq_spec, IH by lia.
    split; [intros [-> ->]; reflexivity|].
    intros H. injection H as -> ->. auto.
Qed.

Lemma hasResetKeysChanged_false_iff (prevKeys nextKeys : list K) :
  hasResetKeysChanged K strict_neq undefined prevKeys nextKeys = false
  <-> prevKeys = nextKeys.
Proof.
  unfold hasResetKeysChanged. rewrite orb_false_iff, negb_false_iff.
  rewrite Nat.eqb_eq. split.
  - intros [Hlen Hd]. now apply some_differs_same_length.
  - intros ->. split; [reflexivity|]. now apply some_differs_same_length.
Qed.

(** X20. The watched keys count as changed exactly when the two lists
    differ, in length or at some position. *)
Theorem hasResetKeysChanged_iff (prevKeys nextKeys : list K) :
  hasResetKeysChanged K strict_neq undefined prevKeys nextKeys = true
  <-> prevKeys <> nextKeys.
Proof.
  rewrite <- hasResetKeysChanged_false_iff.
  destruct (hasResetKeysChanged K strict_neq undefined prevKeys nextKeys);
    split; congruence.
Qed.

(** X21. When [!==] tells exactly different keys apart (no [NaN] among
    the keys): an update leaves a stable boundary alone whatever the keys;
    a failed boundary goes back to [Stable] when both key lists are given
    and differ, and keeps its error when a key list is missing or the two
    are equal. *)
Theorem componentDidUpdate_resets (prevKeys nextKeys : option (list K))
    (e : ErrorResponse.t) :
  componentDidUpdate K strict_neq undefined prevKeys nextKeys Stable = Stable
  /\ (forall p n, prevKeys = Some p -> nextKeys = Some n -> p <> n ->
        componentDidUpdate K strict_neq undefined prevKeys nextKeys (Failed e)
        = Stable)
  /\ ((prevKeys = None \/ nextKeys = None \/ prevKeys = nextKeys) ->
      componentDidUpdate K strict_neq undefined prevKeys nextKeys (Failed e)
      = Failed e).
Proof.
  unfold componentDidUpdate. split; [|split].
  - destruct nextKeys, prevKeys; reflexivity.
  - intros p n -> -> Hne. simpl.
    destruct (hasResetKeysChanged K strict_neq undefined p n) eqn:Hc;
      [reflexivity|].
    apply hasResetKeysChanged_false_iff in Hc. contradiction.
  - intros [-> | [-> | ->]].
    + now destruct nextKeys.
    + reflexivity.
    + destruct nextKeys as [n|]; [|reflexivity]. simpl.
      now rewrite (proj2 (hasResetKeysChanged_false_iff n n) eq_refl).
Qed.

End BoundaryExtras.

Section CatchExtras.
Import ErrorBoundary BoundaryEffects.

(** X22. The catch hook normalizes the raised value a second time: what
    it reports and hands to [onError] is the error held in the boundary's
    state up to the timestamp; it reports exactly when [shouldReport]
    accepts the held error, and calls [onError] whenever it is given. *)
Theorem componentDidCatch_matches_state
    (render_env catch_env : Env) (raw : Value) (onError : bool)
    (log : Monitoring.Log) (held : ErrorResponse.t) :
  production render_env = production catch_env ->
  error (getDerivedStateFromError render_env raw) = Some held ->
  let processed :=
    with_timestamp
      (ErrorResponse.timestamp (ErrorManager.handle catch_env raw)) held in
  componentDidCatch catch_env raw onError log
  = (if ErrorManager.shouldReport render_env held
     then (log ++ [{| Monitoring.error := processed;
                      Monitoring.label := None |}])%list
     else log,
     if onError then Some processed else None).
Proof.
  intros Hp Hheld. simpl in Hheld. injection Hheld as <-. cbv zeta.
  unfold componentDidCatch.
  rewrite <- (handle_other_clock render_env catch_env raw Hp).
  replace (ErrorManager.shouldReport render_env
             (ErrorManager.handle render_env raw))
    with (ErrorManager.shouldReport catch_env
            (ErrorManager.handle catch_env raw)); [reflexivity|].
  rewrite (handle_other_clock render_env catch_env raw Hp).
  rewrite shouldReport_with_timestamp.
  unfold ErrorManager.shouldReport. now rewrite Hp.
Qed.

End CatchExtras.

Lemma hasResetKeysChanged_iff_witness :
  ErrorBoundary.hasResetKeysChanged Z (fun a b => negb (a =? b)) 0
    [1; 2] [1; 3] = true.
Proof.
  apply (hasResetKeysChanged_iff (fun a b => negb (a =? b)) 0).
  - intros a b. rewrite negb_false_iff. apply Z.eqb_eq.
  - discriminate.
Defined.

Lemma componentDidUpdate_resets_witness :
  ErrorBoundary.componentDidUpdate Z (fun a b => negb (a =? b)) 0
    (Some [1; 2]) (Some [1; 3]) (ErrorBoundary.Failed (sample_error 1))
  = ErrorBoundary.Stable.
Proof.
  apply (proj1 (proj2 (componentDidUpdate_resets
                         (fun a b => negb (a =? b)) 0
                         ltac:(intros a b; rewrite negb_false_iff;
                               apply Z.eqb_eq)
                         (Some [1; 2]) (Some [1; 3]) (sample_error 1)))
           [1; 2] [1; 3]); try reflexivity.
  discriminate.
Defined.

Lemma componentDidCatch_matches_state_witness :
  BoundaryEffects.componentDidCatch {| production := false; now := 1000 |}
    (VError "This component has a render error" None) true []
  = ([{| Monitoring.error :=
           with_timestamp "1970-01-01T00:00:01.000Z"
             (ErrorManager.handle {| production := false; now := 0 |}
                (VError "This component has a render error" None));
         Monitoring.label := None |}]%list,
     Some (with_timestamp "1970-01-01T00:00:01.000Z"
             (ErrorManager.handle {| production := false; now := 0 |}
                (VError "This component has a render error" None)))).
Proof.
  apply (componentDidCatch_matches_state
           {| production := false; now := 0 |}
           {| production := false; now := 1000 |}
           (VError "This component has a render error" None) true []
           (ErrorManager.handle {| production := false; now := 0 |}
              (VError "This component has a render error" None)));
    reflexivity.
Defined.

(** ** The error-handling decorator *)

Section DecoratorExtras.
Import Decorator.
Context {W T : Type}.
Implicit Types (fn : Retry.Operation W T Value) (options : Options).

(** X23. The response of the decorated function, with no transform
    configured and [options.shouldReport], when given, returning a
    boolean.  When the wrapped function returns, the response carries the
    result with status 200 and nothing is logged; when it throws, the
    response carries the normalized error, and its status is the thrown
    typed error's code, or 500 when that code is missing, zero or empty
    and for every thrown value that is no typed error. *)
Theorem withErrorHandling_response
    (env : Env) (flags : FeatureFlags.Table) fn options (w : W)
    (log : Monitoring.Log) :
  transformError options = None ->
  let '(response, w', log') := withErrorHandling env flags fn options w log in
  w' = snd (fn w)
  /\ match fst (fn w) with
     | Retry.Resolved result =>
         data response = Some result
         /\ error response = None
         /\ status response = CodeNum 200
         /\ log' = log
     | Retry.Rejected raised =>
         data response = None
         /\ error response = Some (ErrorManager.handle env raised)
         /\ status response
            = match raised with
              | VTyped e => status_of (BaseError.code e)
              | _ => CodeNum 500
              end
     end.
Proof.
  intros Ht. unfold withErrorHandling. rewrite Ht.
  destruct (fn w) as [[result|raised] w']; simpl.
  - repeat split.
  - repeat split.
    destruct raised; simpl; try reflexivity.
    unfold ErrorManager.handleStandardError.
    now destruct (ErrorManager.classify message) as [[c s] r].
Qed.

(** X24. The decorator logs at most one call per failure, the normalized
    error under the configured context label, and only while the reporting
    flag is on.  With the default decision and the production policy, a
    thrown validation error or an error with code 404 is never logged. *)
Theorem withErrorHandling_logging
    (env : Env) (flags : FeatureFlags.Table) fn options (w : W)
    (log : Monitoring.Log) :
  let '(response, _, log') := withErrorHandling env flags fn options w log in
  (log' = log
   \/ exists e,
        error response = Some e
        /\ FeatureFlags.isFeatureEnabled flags "ENABLE_ERROR_REPORTING" = true
        /\ log' = (log ++ [{| Monitoring.error := e;
                              Monitoring.label := context options |}])%list)
  /\ (production env = true ->
      shouldReport options = None ->
      (forall e, error response = Some e ->
                 ErrorResponse.category e = VALIDATION
                 \/ ErrorResponse.code e = Some (CodeNum 404)) ->
      log' = log).
Proof.
  unfold withErrorHandling.
  destruct (fn w) as [[result|raised] w']; simpl.
  - split; [now left | reflexivity].
  - set (processed :=
           match transformError options with
           | Some f => f (ErrorManager.handle env raised)
           | None => ErrorManager.handle env raised
           end).
    split.
    + destruct (FeatureFlags.isFeatureEnabled flags "ENABLE_ERROR_REPORTING")
        eqn:Hflag; simpl; [|now left].
      destruct (match shouldReport options with
                | Some f => f processed
                | None => ErrorManager.shouldReport env processed
                end); [|now left].
      right. exists processed. repeat split.
    + intros Hprod Hdefault Hgate. rewrite Hdefault.
      assert (Hs : ErrorManager.shouldReport env processed = false).
      { unfold ErrorManager.shouldReport. rewrite Hprod.
        destruct (Hgate processed eq_refl) as [Hc|Hc]; rewrite Hc.
        - reflexivity.
        - simpl.
          now destruct (ErrorCategory_eqb (ErrorResponse.category processed)
                          VALIDATION). }
      rewrite Hs. now rewrite andb_false_r.
Qed.

End DecoratorExtras.

Lemma withErrorHandling_response_witness :
  let '(response, _, _) :=
    Decorator.withErrorHandling {| production := true; now := 0 |}
      (FeatureFlags.initial {| production := true; now := 0 |})
      (user_not_found {| production := true; now := 0 |})
      demo_options tt [] in
  Decorator.status response = CodeNum 404.
Proof.
  pose proof (withErrorHandling_response
                {| production := true; now := 0 |}
                (FeatureFlags.initial {| production := true; now := 0 |})
                (user_not_found {| production := true; now := 0 |})
                demo_options tt [] eq_refl) as H.
  destruct (Decorator.withErrorHandling _ _ _ _ _ _) as [[response w'] log'].
  destruct H as (_ & _ & _ & H). exact H.
Defined.

(** ** The global handlers *)

Section GlobalsExtras.
Import Globals.

(** X25. [window.onerror] normalizes the error object when there is one
    and the message otherwise, makes the result the visible current error
    at the head of the history, logs it to monitoring without consulting
    [shouldReport], and returns true; the toast effect that follows shows
    exactly that error. *)
Theorem onerror_publishes (env : Env) (message error : Value) (w : World) :
  let raw := if truthy error then error else message in
  let '(handled, w') := onerror env message error w in
  handled = true
  /\ ErrorStore.currentError (store w') = Some (ErrorManager.handle env raw)
  /\ ErrorStore.isErrorVisible (store w') = true
  /\ hd_error (ErrorStore.errorHistory (store w'))
     = Some (ErrorManager.handle env raw)
  /\ monitored w'
     = (monitored w
        ++ [{| Monitoring.error := ErrorManager.handle env raw;
               Monitoring.label := Some "window.onerror" |}])%list
  /\ fst (Toast.effect (store w'))
     = [Toast.showErrorToast (ErrorManager.handle env raw)].
Proof. cbv zeta. unfold onerror, or_value. simpl. repeat split. Qed.

End GlobalsExtras.

(** ** useApi: errors of the HTTP client *)

Section UseApiExtras.
Import UseApi.
Variable object_message : positive -> option string.

(** X26. A client error without a response (the request never got an
    answer) is normalized with code 0 as unknown, medium and not
    retryable, under the client's own message, or "HTTP Error 0" when
    that is empty.  With a response, the code is the response status and
    the data is the response body. *)
Theorem handleAxiosError_cases (built env : Env) (stk : option string)
    (error : AxiosError) :
  let r := handleAxiosError object_message built env stk error in
  match response error with
  | None =>
      ErrorResponse.code r = Some (CodeNum 0)
      /\ ErrorResponse.category r = UNKNOWN
      /\ ErrorResponse.severity r = MEDIUM
      /\ ErrorResponse.retry r = Some false
      /\ ErrorResponse.data r = VUndefined
      /\ ErrorResponse.message r
         = Js.or_string (Some (message error)) "HTTP Error 0"
  | Some resp =>
      ErrorResponse.code r = Some (CodeNum (status resp))
      /\ ErrorResponse.data r = data resp
  end.
Proof.
  cbv zeta. unfold handleAxiosError, pick_message.
  destruct (response error) as [resp|].
  - replace (if status resp =? 0 then 0 else status resp) with (status resp)
      by (destruct (status resp =? 0) eqn:H0; [lia|reflexivity]).
    unfold ErrorManager.handle, ErrorManager.formatErrorResponse.
    cbn [ErrorResponse.code ErrorResponse.data].
    apply createFromHttpStatus_code_data.
  - repeat split.
Qed.

End UseApiExtras.
